(** * The interview chatbot of [ui.py], embedded in Rocq

    The program is one Streamlit script.  It keeps its data in
    [st.session_state], posts questions and answers to a transcript
    ([chat_history]), and asks an external language model for a report once
    all questions are answered.

    Conventions of the embedding:
    - a Python [str] is the list of its Unicode code points ([pystr]);
    - the graph state [Dict[str, Any]] is a [gmap] from keys to answer lists,
      read with the default of [state.get("answers", [])];
    - the functions that touch [st.session_state] or the model run in the
      monad [M], which threads the [world] and can raise;
    - the external model is the oracle [llm]; every prompt sent to it is
      logged in the ghost field [llm_prompts];
    - [print] calls (debug output) and the rendering calls of Streamlit
      ([st.title], [st.markdown], [st.info], [st.success]) change no data and
      are left out, as is the widget-owned key [current_answer_input], which
      no function of the program reads. *)

From Stdlib Require Import Ascii String.
From stdpp Require Import base gmap list strings pretty relations.

(** ** Python strings *)

Abbreviation pystr := (list N).

(** An ASCII literal as a Python string. *)
Definition py (s : string) : pystr :=
  (λ c, Ascii.N_of_ascii c) <$> String.list_ascii_of_string s.

(** [str(n)] for a natural number. *)
Definition py_str_nat (n : nat) : pystr := py (pretty n).

Definition newline : pystr := [10%N].
Definition em_dash : pystr := [8212%N].
Definition right_quote : pystr := [8217%N].

(** [str.isspace] on one code point: the ASCII table of CPython and the
    Unicode white-space code points. *)
Definition py_isspace (c : N) : bool :=
  ((9 <=? c) && (c <=? 13) || (28 <=? c) && (c <=? 32)
   || (c =? 133) || (c =? 160) || (c =? 5760)
   || (8192 <=? c) && (c <=? 8202)
   || (c =? 8232) || (c =? 8233) || (c =? 8239) || (c =? 8287)
   || (c =? 12288))%N.

Fixpoint lstrip (s : pystr) : pystr :=
  match s with
  | c :: s' => if py_isspace c then lstrip s' else s
  | [] => []
  end.

Definition rstrip (s : pystr) : pystr := reverse (lstrip (reverse s)).

(** [s.strip()] *)
Definition strip (s : pystr) : pystr := rstrip (lstrip s).

(** [s.endswith(suffix)] *)
Definition endswith (s suffix : pystr) : bool :=
  bool_decide (length suffix ≤ length s)
  && bool_decide (drop (length s - length suffix) s = suffix).

(** [sep.join(parts)] *)
Fixpoint py_join (sep : pystr) (parts : list pystr) : pystr :=
  match parts with
  | [] => []
  | [p] => p
  | p :: rest => p ++ sep ++ py_join sep rest
  end.

(** Truth value of a string or a list: non-empty. *)
Definition truthy {A} (l : list A) : bool :=
  match l with [] => false | _ => true end.

(** ** Data model *)

(** Module-level constant [questions]. *)
Definition questions : list pystr :=
  [ py "What is your name?";
    py "What is your professional background?";
    py "What are your technical skills?";
    py "What are your strengths?";
    py "What are your weaknesses?";
    py "Describe a challenging project you completed.";
    py "What are your career goals?";
    py "How do you handle stress?";
    py "How do you work in a team?";
    py "Why should we hire you?" ].

Inductive role := bot | user.

Global Instance role_eq_dec : EqDecision role.
Proof. solve_decision. Defined.

(** One entry of [chat_history]: [{"role": ..., "content": ...}]. *)
Record message := Message { msg_role : role; content : pystr }.

Global Instance message_eq_dec : EqDecision message.
Proof. solve_decision. Defined.

(** The graph state, a dictionary whose only key in use is ["answers"]. *)
Abbreviation graph := (gmap string (list pystr)).

(** [state.get("answers", [])] *)
Definition answers (state : graph) : list pystr :=
  default [] (state !! "answers").

(** [st.session_state], and the log of the prompts sent to the model. *)
Record world := World {
  graph_state : graph;
  chat_history : list message;
  interview_complete : bool;
  report_generated : bool;
  interview_started : bool;
  llm_prompts : list pystr
}.

Definition set_graph_state (g : graph) (w : world) : world :=
  World g (chat_history w) (interview_complete w) (report_generated w)
        (interview_started w) (llm_prompts w).
Definition set_chat_history (h : list message) (w : world) : world :=
  World (graph_state w) h (interview_complete w) (report_generated w)
        (interview_started w) (llm_prompts w).
Definition set_interview_complete (b : bool) (w : world) : world :=
  World (graph_state w) (chat_history w) b (report_generated w)
        (interview_started w) (llm_prompts w).
Definition set_report_generated (b : bool) (w : world) : world :=
  World (graph_state w) (chat_history w) (interview_complete w) b
        (interview_started w) (llm_prompts w).
Definition set_interview_started (b : bool) (w : world) : world :=
  World (graph_state w) (chat_history w) (interview_complete w)
        (report_generated w) b (llm_prompts w).
Definition log_prompt (p : pystr) (w : world) : world :=
  World (graph_state w) (chat_history w) (interview_complete w)
        (report_generated w) (interview_started w) (llm_prompts w ++ [p]).

(** The session initialisation block: every key gets its default once. *)
Definition initial_world : world :=
  World {["answers" := []]} [] false false false [].

(** ** Exceptions and the monad of the script *)

(** An instance of Python's [Exception]: its class name and [str(e)]. *)
Record py_exception := PyExc { exc_class : string; exc_str : pystr }.

(** What can unwind the script: an [Exception], or the control signal that
    [st.rerun()] raises, which [except Exception] does not catch. *)
Inductive signal := Exception (e : py_exception) | RerunException.

Inductive outcome (A : Type) :=
| Returned (a : A) (w : world)
| Raised (s : signal) (w : world).
Arguments Returned {A} a w.
Arguments Raised {A} s w.

(** The world a computation leaves behind, however it ended. *)
Definition world_of {A} (o : outcome A) : world :=
  match o with Returned _ w => w | Raised _ w => w end.

Definition M (A : Type) : Type := world → outcome A.

Global Instance M_ret : MRet M := λ A a w, Returned a w.
Global Instance M_bind : MBind M := λ A B f m w,
  match m w with
  | Returned a w' => f a w'
  | Raised s w' => Raised s w'
  end.

Definition raise {A} (s : signal) : M A := λ w, Raised s w.
Definition get {A} (field : world → A) : M A := λ w, Returned (field w) w.
Definition modify (f : world → world) : M unit := λ w, Returned tt (f w).

(** [try: body except Exception as e: handler e] *)
Definition try_except {A} (body : M A) (handler : py_exception → M A) : M A :=
  λ w, match body w with
       | Raised (Exception e) w' => handler e w'
       | o => o
       end.

Definition IndexError : py_exception :=
  PyExc "IndexError" (py "list index out of range").

(** [l[i]] for a natural index. *)
Definition index {A} (l : list A) (i : nat) : M A :=
  match l !! i with
  | Some x => mret x
  | None => raise (Exception IndexError)
  end.

(** [st.session_state.chat_history.append(m)] *)
Definition chat_append (m : message) : M unit :=
  modify (λ w, set_chat_history (chat_history w ++ [m]) w).

(** [st.rerun()] *)
Definition st_rerun {A} : M A := raise RerunException.

(** What the widgets return in one run of the script: the text submitted
    through [st.chat_input] (or [None]) and whether the reset button was
    clicked. *)
Record widgets := Widgets {
  chat_input : option pystr;
  button : bool
}.

(** ** The logic functions *)

Section Logic.

(** The external model endpoint: [llm.invoke(prompt).content], or the
    exception the call raises. *)
Variable llm : pystr → pystr + py_exception.

Definition llm_invoke (prompt : pystr) : M pystr :=
  modify (log_prompt prompt);;
  match llm prompt with
  | inl report_content => mret report_content
  | inr e => raise (Exception e)
  end.

(** The entry that presents question [num_answers + 1]. *)
Definition question_entry (num_answers : nat) (question_text : pystr) : message :=
  Message bot (py "**Q" ++ py_str_nat (num_answers + 1) ++ py ":** " ++ question_text).

(** Node 1: ask the next question. *)
Definition ask_question_logic (state : graph) : M graph :=
  let num_answers := length (answers state) in
  (if bool_decide (num_answers < length questions) then
     question_text ← index questions num_answers;
     history ← get chat_history;
     match last history with
     | None => chat_append (question_entry num_answers question_text)
     | Some m =>
         if negb (bool_decide (msg_role m = bot)
                  && endswith (content m) question_text)
         then chat_append (question_entry num_answers question_text)
         else mret tt
     end
   else mret tt);;
  mret state.

(** Node 2: collect the user's answer. *)
Definition collect_answer_logic (state : graph) (user_input : pystr) : M graph :=
  let answer := strip user_input in
  if truthy answer then
    let current_answers := answers state ++ [answer] in
    chat_append (Message user answer);;
    let new_state := <["answers" := current_answers]> state in
    mret new_state
  else mret state.

(** The conditional edge: which phase comes next. *)
Definition check_completion_condition (state : graph) : string :=
  let num_answers := length (answers state) in
  if bool_decide (length questions ≤ num_answers)
  then "generate_report"
  else "ask_question".

(** One block of the report prompt, for index [i]. *)
Definition answer_block (answer_list : list pystr) (i : nat) : M pystr :=
  q ← index questions i;
  a ← index answer_list i;
  mret (py "Q" ++ py_str_nat (i + 1) ++ py ": " ++ q ++ newline
        ++ py "A" ++ py_str_nat (i + 1) ++ py ": " ++ a).

(** The instruction template around the formatted answers. *)
Definition report_prompt (formatted_answers : pystr) : pystr :=
  newline
  ++ py "You are an experienced HR specialist responsible for evaluating job candidates after structured interviews. Below are the candidate's responses to a series of interview questions. Your task is to write a well-structured, formal 5-paragraph evaluation report. This report should reflect the candidate's communication skills, professional experience, critical thinking, and cultural fit for the role."
  ++ newline ++ newline
  ++ py "Please ensure the report includes:"
  ++ newline ++ newline
  ++ py "1. **Introduction** " ++ em_dash
  ++ py " Briefly introduce the candidate and the interview context."
  ++ newline
  ++ py "2. **Strengths** " ++ em_dash
  ++ py " Highlight key strengths observed from the responses."
  ++ newline
  ++ py "3. **Weaknesses or Areas for Improvement** " ++ em_dash
  ++ py " Mention any concerns or gaps noted during the interview."
  ++ newline
  ++ py "4. **Overall Impression** " ++ em_dash
  ++ py " Summarize how the candidate presented themselves professionally."
  ++ newline
  ++ py "5. **Recommendation** " ++ em_dash
  ++ py " Conclude with your recommendation on the candidate" ++ right_quote
  ++ py "s suitability for the role (e.g., move forward to next round, strong hire, needs more evaluation, etc.)."
  ++ newline ++ newline
  ++ py "Interview Responses:" ++ newline
  ++ formatted_answers ++ newline.

Definition report_heading : pystr :=
  py "### Final Evaluation Report:" ++ newline.

(** Node 3: generate the final report. *)
Definition generate_report_logic (state : graph) : M graph :=
  let answer_list := answers state in
  if negb (truthy answer_list) then
    chat_append
      (Message bot (py "No answers collected. Cannot generate report."));;
    mret state
  else
    blocks ← mapM (answer_block answer_list) (seq 0 (length answer_list));
    let formatted_answers := py_join newline blocks in
    let prompt := report_prompt formatted_answers in
    try_except
      (report_content ← llm_invoke prompt;
       chat_append (Message bot (report_heading ++ report_content)))
      (λ e, chat_append
              (Message bot (py "Error generating report: " ++ exc_str e)));;
    mret state.

(** ** The Streamlit script *)

(** The reset button: [if st.button("Start New Interview"): ...]. *)
Definition reset_button (inp : widgets) : M unit :=
  if button inp then
    modify (set_graph_state {["answers" := []]});;
    modify (set_chat_history []);;
    modify (set_interview_complete false);;
    modify (set_report_generated false);;
    modify (set_interview_started false);;
    st_rerun
  else mret tt.

(** One run of the script, from the first statement after the session
    initialisation to the end (or to the first [st.rerun()]). *)
Definition script (inp : widgets) : M unit :=
  current_graph_state ← get graph_state;
  let num_answers := length (answers current_graph_state) in
  let total_questions := length questions in
  started ← get interview_started;
  complete ← get interview_complete;
  (if negb started && negb complete then
     modify (set_interview_started true);;
     ask_question_logic current_graph_state;;
     st_rerun
   else mret tt);;
  let interview_is_complete := bool_decide (total_questions ≤ num_answers) in
  let current_phase := check_completion_condition current_graph_state in
  (if bool_decide (current_phase = "ask_question") then
     if negb interview_is_complete then
       match chat_input inp with
       | Some user_answer =>
           if truthy user_answer then
             new_state ← collect_answer_logic current_graph_state user_answer;
             modify (set_graph_state new_state);;
             stored ← get graph_state;
             ask_question_logic stored;;
             st_rerun
           else mret tt
       | None => mret tt
       end
     else mret tt
   else if bool_decide (current_phase = "generate_report") then
     generated ← get report_generated;
     if negb generated then
       modify (set_report_generated true);;
       generate_report_logic current_graph_state;;
       modify (set_interview_complete true);;
       st_rerun
     else mret tt
   else mret tt);;
  reset_button inp.

End Logic.

(** ** The step relation of the user interface *)

(** One step is one run of the script, for some widget values and some
    behaviour of the external model. *)
Inductive ui_step : world → world → Prop :=
| ui_run llm inp w : ui_step w (world_of (script llm inp w)).

Definition reachable (w : world) : Prop := rtc ui_step initial_world w.

(** ** Pure readings of the logic functions, used to state their effect *)

(** Whether the transcript already ends with the bot's posting of
    [question_text] (the test of [ask_question_logic], negated). *)
Definition already_posted (question_text : pystr) (history : list message) : bool :=
  match last history with
  | None => false
  | Some m => bool_decide (msg_role m = bot) && endswith (content m) question_text
  end.

(** The entries [ask_question_logic] appends for [state] to [history]. *)
Definition ask_posts (state : graph) (history : list message) : list message :=
  let n := length (answers state) in
  match questions !! n with
  | Some q => if already_posted q history then [] else [question_entry n q]
  | None => []
  end.

(** The numbered blocks of the report prompt, numbering from [start + 1]. *)
Fixpoint format_blocks (start : nat) (qs ans : list pystr) : list pystr :=
  match qs, ans with
  | q :: qs', a :: ans' =>
      (py "Q" ++ py_str_nat (start + 1) ++ py ": " ++ q ++ newline
       ++ py "A" ++ py_str_nat (start + 1) ++ py ": " ++ a)
      :: format_blocks (S start) qs' ans'
  | _, _ => []
  end.

(** The prompt [generate_report_logic] sends for a list of answers that is
    no longer than the question list. *)
Definition prompt_for (answer_list : list pystr) : pystr :=
  report_prompt (py_join newline (format_blocks 0 questions answer_list)).

(** The first position of [hay] at which [needle] occurs. *)
Fixpoint find_from (needle hay : pystr) : option nat :=
  if bool_decide (take (length needle) hay = needle) then Some 0
  else match hay with
       | [] => None
       | _ :: hay' => S <$> find_from needle hay'
       end.

(** [needles] occur in [hay] one after the other, without overlap. *)
Fixpoint occur_in_order (needles : list pystr) (hay : pystr) : bool :=
  match needles with
  | [] => true
  | n :: rest =>
      match find_from n hay with
      | Some i => occur_in_order rest (drop (i + length n) hay)
      | None => false
      end
  end.

(** [needles] are disjoint pieces of [hay], met in this order. *)
Fixpoint pieces_in_order (needles : list pystr) (hay : pystr) : Prop :=
  match needles with
  | [] => True
  | n :: rest => ∃ pre post, hay = pre ++ n ++ post ∧ pieces_in_order rest post
  end.

(** The worlds after a sequence of script runs, starting from a fresh
    session. *)
Definition run_session (runs : list ((pystr → pystr + py_exception) * widgets)) : world :=
  foldl (λ w r, world_of (script r.1 r.2 w)) initial_world runs.

(** The string consists of white space only. *)
Definition all_space (s : pystr) : Prop := Forall (λ c, py_isspace c = true) s.

(** [w'] differs from [w] at most in the transcript and the prompt log. *)
Definition same_session (w w' : world) : Prop :=
  graph_state w' = graph_state w
  ∧ interview_complete w' = interview_complete w
  ∧ report_generated w' = report_generated w
  ∧ interview_started w' = interview_started w.

(** ** The shape of the transcript *)

(** The answered part of an interview: each question followed by its
    answer, the questions numbered from [start + 1]. *)
Fixpoint dialogue (start : nat) (qs ans : list pystr) : list message :=
  match qs, ans with
  | q :: qs', a :: ans' =>
      question_entry start q :: Message user a :: dialogue (S start) qs' ans'
  | _, _ => []
  end.

(** The question that waits for its answer after [n] answers, if any. *)
Definition pending_question (n : nat) : list message :=
  match questions !! n with
  | Some q => [question_entry n q]
  | None => []
  end.

(** An entry that closes the interview: the report or the error notice. *)
Definition is_closing (m : message) : Prop :=
  msg_role m = bot
  ∧ ∃ text, content m = report_heading ++ text
            ∨ content m = py "Error generating report: " ++ text.

(** What a session looks like between two runs of the script. *)
Definition transcript_shape (w : world) : Prop :=
  let ans := answers (graph_state w) in
  if interview_started w then
    length ans ≤ length questions
    ∧ interview_complete w = report_generated w
    ∧ ∃ closing,
        chat_history w
        = dialogue 0 questions ans ++ pending_question (length ans) ++ closing
        ∧ if report_generated w
          then length ans = length questions ∧ ∃ m, closing = [m] ∧ is_closing m
          else closing = []
  else
    ans = [] ∧ chat_history w = []
    ∧ interview_complete w = false ∧ report_generated w = false.

(** ** Sample data *)

Definition sample_answers : list pystr :=
  [ py "Alex"; py "Engineer"; py "Python"; py "Fast learner"; py "Impatient";
    py "Migrated a DB under deadline"; py "Lead a team"; py "Exercise";
    py "Listen first"; py "I deliver" ].

(** The ten question and answer pairs as the prompt is expected to show
    them. *)
Definition sample_pairs : list pystr :=
  [ py "Q1: What is your name?" ++ newline ++ py "A1: Alex";
    py "Q2: What is your professional background?" ++ newline ++ py "A2: Engineer";
    py "Q3: What are your technical skills?" ++ newline ++ py "A3: Python";
    py "Q4: What are your strengths?" ++ newline ++ py "A4: Fast learner";
    py "Q5: What are your weaknesses?" ++ newline ++ py "A5: Impatient";
    py "Q6: Describe a challenging project you completed." ++ newline
      ++ py "A6: Migrated a DB under deadline";
    py "Q7: What are your career goals?" ++ newline ++ py "A7: Lead a team";
    py "Q8: How do you handle stress?" ++ newline ++ py "A8: Exercise";
    py "Q9: How do you work in a team?" ++ newline ++ py "A9: Listen first";
    py "Q10: Why should we hire you?" ++ newline ++ py "A10: I deliver" ].

(** The five section instructions of the report template. *)
Definition section_instructions : list pystr :=
  [ py "1. **Introduction** " ++ em_dash ++ py " Briefly introduce";
    py "2. **Strengths** " ++ em_dash ++ py " Highlight key strengths";
    py "3. **Weaknesses or Areas for Improvement** " ++ em_dash
      ++ py " Mention any concerns";
    py "4. **Overall Impression** " ++ em_dash ++ py " Summarize how";
    py "5. **Recommendation** " ++ em_dash ++ py " Conclude with your recommendation" ].

(** A model that answers every prompt with the same text, and one that
    fails on every prompt. *)
Definition llm_returning (text : pystr) : pystr → pystr + py_exception :=
  λ _, inl text.
Definition llm_raising (e : py_exception) : pystr → pystr + py_exception :=
  λ _, inr e.

Definition timeout_error : py_exception :=
  PyExc "TimeoutError" (py "request timed out").

(** A whole interview: the first run, then one run per submitted answer. *)
Definition interview_runs (llm : pystr → pystr + py_exception)
    (texts : list pystr) : list ((pystr → pystr + py_exception) * widgets) :=
  (llm, Widgets None false) :: ((λ t, (llm, Widgets (Some t) false)) <$> texts).

(** ** The session initialisation block *)

(** [st.session_state] before the script has made sure of its keys: any of
    the five may be missing. *)
Record raw_session := RawSession {
  raw_graph_state : option graph;
  raw_chat_history : option (list message);
  raw_interview_complete : option bool;
  raw_report_generated : option bool;
  raw_interview_started : option bool
}.

(** [if key not in st.session_state: st.session_state.key = default] *)
Definition init_key {A} (current : option A) (default : A) : option A :=
  match current with
  | None => Some default
  | Some _ => current
  end.

(** The five guarded assignments at the top of the script. *)
Definition init_session (s : raw_session) : raw_session :=
  RawSession (init_key (raw_graph_state s) {["answers" := []]})
             (init_key (raw_chat_history s) [])
             (init_key (raw_interview_complete s) false)
             (init_key (raw_report_generated s) false)
             (init_key (raw_interview_started s) false).

(** The session the rest of the script works on, when every key is there. *)
Definition session_world (s : raw_session) (prompts : list pystr) : option world :=
  g ← raw_graph_state s;
  h ← raw_chat_history s;
  c ← raw_interview_complete s;
  r ← raw_report_generated s;
  i ← raw_interview_started s;
  Some (World g h c r i prompts).

(** ** The workflow graph *)

(** What the [StateGraph] builder calls record: the node names, the entry
    point, the plain edges, and the conditional edges with their routing
    table. *)
Record state_graph := StateGraph {
  graph_nodes : list string;
  graph_entry : option string;
  graph_edges : list (string * string);
  graph_routes : list (string * gmap string string)
}.

(** The sentinel [END] of langgraph. *)
Definition END : string := "__end__".

Definition add_node (name : string) (g : state_graph) : state_graph :=
  StateGraph (graph_nodes g ++ [name]) (graph_entry g) (graph_edges g)
             (graph_routes g).
Definition set_entry_point (name : string) (g : state_graph) : state_graph :=
  StateGraph (graph_nodes g) (Some name) (graph_edges g) (graph_routes g).
Definition add_edge (source target : string) (g : state_graph) : state_graph :=
  StateGraph (graph_nodes g) (graph_entry g) (graph_edges g ++ [(source, target)])
             (graph_routes g).
Definition add_conditional_edges (source : string) (table : gmap string string)
    (g : state_graph) : state_graph :=
  StateGraph (graph_nodes g) (graph_entry g) (graph_edges g)
             (graph_routes g ++ [(source, table)]).

(** [workflow], as the module builds it; the condition of its one
    conditional edge is [check_completion_condition]. *)
Definition workflow : state_graph :=
  add_edge "generate_report" END
    (add_conditional_edges "collect_answer"
       {["ask_question" := "ask_question";
         "generate_report" := "generate_report"]}
       (add_edge "ask_question" "collect_answer"
          (set_entry_point "ask_question"
             (add_node "generate_report"
                (add_node "collect_answer"
                   (add_node "ask_question"
                      (StateGraph [] None [] []))))))).

(** Where a conditional edge with routing table [table] leads in [state]:
    the entry of the table under the label the condition returns. *)
Definition conditional_target (table : gmap string string) (state : graph) : option string :=
  table !! check_completion_condition state.

(** The user entries of a transcript. *)
Definition user_texts (history : list message) : list pystr :=
  content <$> filter (λ m, msg_role m = user) history.

(** ** Sample sessions *)

Definition report_model : pystr → pystr + py_exception :=
  llm_returning (py "REPORT_X").

(** Three answers given, the fourth question open. *)
Definition session_after_three : world :=
  run_session (interview_runs report_model (take 3 sample_answers)).

(** All ten answers given, the report still due. *)
Definition session_after_ten : world :=
  run_session (interview_runs report_model sample_answers).

(** The report generated. *)
Definition session_finished : world :=
  run_session (interview_runs report_model sample_answers
               ++ [(report_model, Widgets None false)]).

(** * Properties *)

Ltac run_monad :=
  repeat (unfold mbind, M_bind, mret, M_ret, get, modify, raise, chat_append,
          st_rerun, index; simpl).

Lemma bind_run {A B} (m : M A) (k : A → M B) w :
  (m ≫= k) w
  = match m w with
    | Returned a w' => k a w'
    | Raised s w' => Raised s w'
    end.
Proof. reflexivity. Qed.

Lemma ret_run {A} (a : A) w : mret (M := M) a w = Returned a w.
Proof. reflexivity. Qed.

Ltac run_script :=
  repeat (first [rewrite bind_run | rewrite ret_run];
          cbn beta iota delta [get modify st_rerun raise]).

Ltac fields :=
  cbn [graph_state chat_history interview_complete report_generated
       interview_started llm_prompts set_graph_state set_chat_history
       set_interview_complete set_report_generated set_interview_started
       log_prompt world_of] in *.

Lemma set_chat_history_same w : set_chat_history (chat_history w) w = w.
Proof. by destruct w. Qed.

Lemma answers_insert (state : graph) l : answers (<["answers" := l]> state) = l.
Proof. unfold answers. by rewrite lookup_insert_eq. Qed.

Lemma answers_singleton l : answers {["answers" := l]} = l.
Proof. unfold answers. by rewrite lookup_singleton_eq. Qed.

(** *** The question presenter *)

Lemma ask_question_logic_run state w :
  ask_question_logic state w
  = Returned state (set_chat_history (chat_history w ++ ask_posts state (chat_history w)) w).
Proof.
  unfold ask_question_logic, ask_posts, already_posted.
  run_monad. case_bool_decide as Hn.
  - destruct (questions !! length (answers state)) as [q|] eqn:Hq; run_monad.
    2:{ apply lookup_ge_None in Hq. simpl in Hq. lia. }
    destruct (last (chat_history w)) as [m|]; run_monad; [|done].
    destruct (bool_decide (msg_role m = bot) && endswith (content m) q);
      run_monad; [|done].
    by rewrite app_nil_r, set_chat_history_same.
  - rewrite lookup_ge_None_2 by (simpl; lia).
    by rewrite app_nil_r, set_chat_history_same.
Qed.

(** *** Trimming *)

Lemma lstrip_split s :
  ∃ pre, s = pre ++ lstrip s ∧ all_space pre
         ∧ ∀ c, head (lstrip s) = Some c → py_isspace c = false.
Proof.
  induction s as [|c s (pre & Heq & Hpre & Hhd)]; simpl.
  - exists []. repeat split; [constructor | done].
  - destruct (py_isspace c) eqn:Hc.
    + exists (c :: pre). simpl. rewrite <- Heq.
      repeat split; [by constructor | done].
    + exists []. repeat split; [constructor|]. simpl. congruence.
Qed.

Lemma rstrip_split s :
  ∃ post, s = rstrip s ++ post ∧ all_space post
          ∧ ∀ c, last (rstrip s) = Some c → py_isspace c = false.
Proof.
  destruct (lstrip_split (reverse s)) as (pre & Heq & Hpre & Hhd).
  exists (reverse pre). unfold rstrip. repeat split.
  - rewrite <- reverse_app, <- Heq. by rewrite reverse_involutive.
  - by apply Forall_reverse.
  - intros c. rewrite last_reverse. apply Hhd.
Qed.

Lemma strip_split s :
  ∃ pre post, s = pre ++ strip s ++ post ∧ all_space pre ∧ all_space post
    ∧ (∀ c, head (strip s) = Some c → py_isspace c = false)
    ∧ (∀ c, last (strip s) = Some c → py_isspace c = false).
Proof.
  destruct (lstrip_split s) as (pre & Heq & Hpre & Hhd).
  destruct (rstrip_split (lstrip s)) as (post & Heq' & Hpost & Hlast).
  exists pre, post. unfold strip. repeat split; try done.
  - by rewrite <- Heq'.
  - intros c Hc. apply Hhd. rewrite Heq'.
    destruct (rstrip (lstrip s)); simplify_eq/=; done.
Qed.

Lemma truthy_true {A} (l : list A) : truthy l = true ↔ l ≠ [].
Proof. by destruct l. Qed.

Lemma truthy_false {A} (l : list A) : truthy l = false ↔ l = [].
Proof. by destruct l. Qed.

(** *** The answer collector *)

Lemma collect_answer_logic_run state user_input w :
  collect_answer_logic state user_input w
  = if truthy (strip user_input)
    then Returned (<["answers" := answers state ++ [strip user_input]]> state)
           (set_chat_history (chat_history w ++ [Message user (strip user_input)]) w)
    else Returned state w.
Proof. unfold collect_answer_logic. by destruct (truthy _). Qed.

(** *** The report generator *)

Lemma answer_block_run l i w :
  answer_block l i w
  = match questions !! i, l !! i with
    | Some q, Some a => Returned (py "Q" ++ py_str_nat (i + 1) ++ py ": " ++ q ++ newline
                                  ++ py "A" ++ py_str_nat (i + 1) ++ py ": " ++ a) w
    | _, _ => Raised (Exception IndexError) w
    end.
Proof.
  unfold answer_block, index, mbind, M_bind.
  destruct (questions !! i); [|done]. simpl.
  by destruct (l !! i).
Qed.

Lemma mapM_cons_run {A B} (f : A → M B) x xs w :
  mapM f (x :: xs) w
  = match f x w with
    | Returned y w' =>
        match mapM f xs w' with
        | Returned ys w'' => Returned (y :: ys) w''
        | Raised s w'' => Raised s w''
        end
    | Raised s w' => Raised s w'
    end.
Proof.
  cbn [mapM]. unfold mbind, M_bind, mret, M_ret.
  destruct (f x w); [|done]. by destruct (mapM f xs _).
Qed.

Lemma format_blocks_nil start qs : format_blocks start qs [] = [].
Proof. by destruct qs. Qed.

Lemma mapM_answer_block_ok l w n : ∀ start,
  start + n ≤ length l → start + n ≤ length questions →
  mapM (answer_block l) (seq start n) w
  = Returned (format_blocks start (drop start questions) (take n (drop start l))) w.
Proof.
  induction n as [|n IH]; intros start Hl Hq.
  - by rewrite take_0, format_blocks_nil.
  - cbn [seq]. rewrite mapM_cons_run, answer_block_run.
    destruct (questions !! start) as [q|] eqn:Hq';
      [|apply lookup_ge_None in Hq'; lia].
    destruct (l !! start) as [a|] eqn:Ha;
      [|apply lookup_ge_None in Ha; lia].
    rewrite IH by lia.
    rewrite (drop_S questions q start Hq'), (drop_S l a start Ha).
    reflexivity.
Qed.

Lemma mapM_answer_block_fails l w indices i :
  i ∈ indices → questions !! i = None →
  mapM (answer_block l) indices w = Raised (Exception IndexError) w.
Proof.
  intros Hi Hnone. induction indices as [|j indices IH]; [by inversion Hi|].
  rewrite mapM_cons_run, answer_block_run.
  apply elem_of_cons in Hi as [->|Hi]; [by rewrite Hnone|].
  destruct (questions !! j); [|done].
  destruct (l !! j); [|done].
  by rewrite IH.
Qed.

Lemma generate_report_logic_empty llm state w :
  answers state = [] →
  generate_report_logic llm state w
  = Returned state
      (set_chat_history
         (chat_history w
          ++ [Message bot (py "No answers collected. Cannot generate report.")]) w).
Proof. intros Hnil. unfold generate_report_logic. by rewrite Hnil. Qed.

Lemma blocks_of_all_answers state w :
  length (answers state) ≤ length questions →
  mapM (answer_block (answers state)) (seq 0 (length (answers state))) w
  = Returned (format_blocks 0 questions (answers state)) w.
Proof.
  intros Hlen. rewrite mapM_answer_block_ok by (simpl in *; lia).
  by rewrite !drop_0, firstn_all.
Qed.

Lemma generate_report_logic_ok llm state w report_content :
  answers state ≠ [] →
  length (answers state) ≤ length questions →
  llm (prompt_for (answers state)) = inl report_content →
  generate_report_logic llm state w
  = Returned state
      (set_chat_history
         (chat_history w ++ [Message bot (report_heading ++ report_content)])
         (log_prompt (prompt_for (answers state)) w)).
Proof.
  intros Hne Hlen Hllm. unfold generate_report_logic.
  apply truthy_true in Hne as ->. cbn [negb].
  rewrite bind_run, blocks_of_all_answers by done.
  fold (prompt_for (answers state)).
  unfold try_except, llm_invoke. run_monad. by rewrite Hllm.
Qed.

Lemma generate_report_logic_error llm state w e :
  answers state ≠ [] →
  length (answers state) ≤ length questions →
  llm (prompt_for (answers state)) = inr e →
  generate_report_logic llm state w
  = Returned state
      (set_chat_history
         (chat_history w
          ++ [Message bot (py "Error generating report: " ++ exc_str e)])
         (log_prompt (prompt_for (answers state)) w)).
Proof.
  intros Hne Hlen Hllm. unfold generate_report_logic.
  apply truthy_true in Hne as ->. cbn [negb].
  rewrite bind_run, blocks_of_all_answers by done.
  fold (prompt_for (answers state)).
  unfold try_except, llm_invoke. run_monad. by rewrite Hllm.
Qed.

Lemma generate_report_logic_overflow llm state w :
  length questions < length (answers state) →
  generate_report_logic llm state w = Raised (Exception IndexError) w.
Proof.
  intros Hlen. unfold generate_report_logic.
  destruct (truthy (answers state)) eqn:Ht.
  2:{ apply truthy_false in Ht. rewrite Ht in Hlen. simpl in Hlen. lia. }
  cbn [negb]. rewrite bind_run.
  rewrite (mapM_answer_block_fails _ _ _ (length questions)); [done| |done].
  apply elem_of_seq. lia.
Qed.

Lemma generate_report_logic_cases llm state w :
  (∃ w', generate_report_logic llm state w = Returned state w'
         ∧ same_session w w'
         ∧ ∃ m, chat_history w' = chat_history w ++ [m])
  ∨ generate_report_logic llm state w = Raised (Exception IndexError) w.
Proof.
  destruct (decide (answers state = [])) as [Hnil|Hne].
  { left. eexists. split; [by apply generate_report_logic_empty|].
    split; [done|by eexists]. }
  destruct (decide (length (answers state) ≤ length questions)) as [Hlen|Hlen].
  - left. destruct (llm (prompt_for (answers state))) as [r|e] eqn:Hllm.
    + eexists. split; [by apply generate_report_logic_ok|].
      split; [done|by eexists].
    + eexists. split; [by apply generate_report_logic_error|].
      split; [done|by eexists].
  - right. apply generate_report_logic_overflow. lia.
Qed.

(** *** The completion check *)

Lemma phase_is_ask state :
  bool_decide (check_completion_condition state = "ask_question")
  = bool_decide (length (answers state) < length questions).
Proof.
  unfold check_completion_condition.
  repeat case_bool_decide; try done; lia.
Qed.

Lemma phase_is_report state :
  bool_decide (check_completion_condition state = "generate_report")
  = bool_decide (length questions ≤ length (answers state)).
Proof.
  unfold check_completion_condition.
  repeat case_bool_decide; try done; lia.
Qed.

(** *** The script, branch by branch *)

Lemma reset_button_run inp w :
  reset_button inp w
  = if button inp
    then Raised RerunException
           (World {["answers" := []]} [] false false false (llm_prompts w))
    else Returned tt w.
Proof. unfold reset_button. by destruct (button inp). Qed.

Lemma script_first_run llm inp w :
  interview_started w = false → interview_complete w = false →
  script llm inp w
  = Raised RerunException
      (world_of (ask_question_logic (graph_state w) (set_interview_started true w))).
Proof.
  intros Hs Hc. unfold script. run_script.
  rewrite Hs, Hc. cbn [negb andb]. run_script.
  by rewrite ask_question_logic_run.
Qed.

Lemma script_after_start llm inp w :
  interview_started w || interview_complete w = true →
  script llm inp w
  = let state := graph_state w in
    if bool_decide (length (answers state) < length questions) then
      match chat_input inp with
      | Some user_answer =>
          if truthy user_answer then
            match collect_answer_logic state user_answer w with
            | Returned new_state w1 =>
                Raised RerunException
                  (world_of (ask_question_logic new_state
                               (set_graph_state new_state w1)))
            | Raised s w1 => Raised s w1
            end
          else reset_button inp w
      | None => reset_button inp w
      end
    else if report_generated w then reset_button inp w
    else
      match generate_report_logic llm state (set_report_generated true w) with
      | Returned _ w1 => Raised RerunException (set_interview_complete true w1)
      | Raised s w1 => Raised s w1
      end.
Proof.
  intros Hstarted. unfold script. run_script.
  replace (negb (interview_started w) && negb (interview_complete w))
    with false by (by destruct (interview_started w), (interview_complete w)).
  run_script. rewrite phase_is_ask, phase_is_report. cbn zeta.
  case_bool_decide as Hlt.
  - rewrite bool_decide_false by lia. cbn [negb].
    destruct (chat_input inp) as [user_answer|]; run_script; [|done].
    destruct (truthy user_answer); run_script; [|done].
    destruct (collect_answer_logic _ _ _) as [new_state w1|]; [|done].
    run_script. cbn [graph_state set_graph_state].
    by rewrite ask_question_logic_run.
  - rewrite bool_decide_true by lia. run_script.
    destruct (report_generated w); cbn [negb]; run_script; [done|].
    destruct (generate_report_logic _ _ _); [|done]. by run_script.
Qed.

(** One run of the script leaves the stored graph state alone, clears it, or
    appends one answer to it, and the last only below the question count. *)
Lemma script_graph_state llm inp w :
  let w' := world_of (script llm inp w) in
  graph_state w' = graph_state w
  ∨ graph_state w' = {["answers" := []]}
  ∨ (length (answers (graph_state w)) < length questions
     ∧ ∃ a, graph_state w'
            = <["answers" := answers (graph_state w) ++ [a]]> (graph_state w)).
Proof.
  cbn zeta.
  assert (Hreset : ∀ w0, graph_state w0 = graph_state w →
    graph_state (world_of (reset_button inp w0)) = graph_state w
    ∨ graph_state (world_of (reset_button inp w0)) = {["answers" := []]}).
  { intros w0 Hw0. rewrite reset_button_run.
    destruct (button inp); [by right|by left]. }
  destruct (interview_started w || interview_complete w) eqn:Hstarted.
  - rewrite script_after_start by done. cbn zeta.
    case_bool_decide as Hlt.
    + destruct (chat_input inp) as [user_answer|];
        [|destruct (Hreset w) as [?|?]; by auto].
      destruct (truthy user_answer);
        [|destruct (Hreset w) as [?|?]; by auto].
      rewrite collect_answer_logic_run.
      destruct (truthy (strip user_answer));
        cbn [world_of]; rewrite ask_question_logic_run; cbn.
      * right; right. split; [done|]. by eexists.
      * by left.
    + destruct (report_generated w);
        [destruct (Hreset w) as [?|?]; by auto|].
      destruct (generate_report_logic_cases llm (graph_state w)
                  (set_report_generated true w))
        as [(w1 & -> & (Hgs & _) & _)| ->]; left; [|done].
      cbn. by rewrite Hgs.
  - apply orb_false_elim in Hstarted as [Hs Hc].
    rewrite script_first_run by done. left.
    by rewrite ask_question_logic_run.
Qed.

Lemma script_answers_bounded llm inp w :
  length (answers (graph_state w)) ≤ length questions →
  length (answers (graph_state (world_of (script llm inp w)))) ≤ length questions.
Proof.
  intros Hle.
  destruct (script_graph_state llm inp w) as [-> | [-> | [Hlt [a ->]]]].
  - done.
  - rewrite answers_singleton. cbn. lia.
  - rewrite answers_insert, length_app. cbn in *. lia.
Qed.

Lemma reachable_answers_bounded w :
  reachable w → length (answers (graph_state w)) ≤ length questions.
Proof.
  unfold reachable. revert w.
  apply (rtc_ind_r (λ w, length (answers (graph_state w)) ≤ length questions)).
  - cbn [initial_world graph_state]. rewrite answers_singleton. cbn. lia.
  - intros w1 w2 _ [llm inp w0] IH. by apply script_answers_bounded.
Qed.

Lemma reachable_run_session runs : reachable (run_session runs).
Proof.
  unfold run_session, reachable.
  induction runs as [|[llm inp] runs IH] using rev_ind; [constructor|].
  rewrite foldl_app. cbn [foldl]. eapply rtc_r; [exact IH|constructor].
Qed.

(** C1.  In every session state that the user interface can reach from a
    fresh session, the number of collected answers is at most ten, and at
    most the length of the question list. *)
Theorem answers_never_exceed_questions w :
  reachable w →
  length (answers (graph_state w)) ≤ 10
  ∧ length (answers (graph_state w)) ≤ length questions.
Proof.
  intros Hreach. apply reachable_answers_bounded in Hreach.
  split; [exact Hreach|done].
Qed.

(** C2.  The collector trims the white space around the submitted text.  A
    non-empty trimmed text is appended to the answers of the returned state
    and posted as one user entry; every other key of the state and every
    other field of the session stay as they were.  An empty trimmed text
    gives back the state and the session untouched, without raising. *)
Theorem collect_answer_logic_contract state user_input w :
  let answer := strip user_input in
  (∃ pre post, user_input = pre ++ answer ++ post
     ∧ all_space pre ∧ all_space post
     ∧ (∀ c, head answer = Some c → py_isspace c = false)
     ∧ (∀ c, last answer = Some c → py_isspace c = false))
  ∧ (answer ≠ [] →
     ∃ new_state,
       collect_answer_logic state user_input w
       = Returned new_state
           (set_chat_history (chat_history w ++ [Message user answer]) w)
       ∧ answers new_state = answers state ++ [answer]
       ∧ ∀ key, key ≠ "answers" → new_state !! key = state !! key)
  ∧ (answer = [] →
     collect_answer_logic state user_input w = Returned state w).
Proof.
  cbn zeta. split; [apply strip_split|].
  rewrite collect_answer_logic_run. split.
  - intros Hne. apply truthy_true in Hne as ->.
    eexists. split; [done|]. split; [apply answers_insert|].
    intros key Hkey. by rewrite lookup_insert_ne.
  - by intros ->.
Qed.

(** C3.  The completion check depends on the state only through the number
    of answers: it gives ["ask_question"] below ten answers and
    ["generate_report"] from ten on.  It is a total function of its argument
    alone, so it neither reads nor writes the session and cannot raise. *)
Theorem check_completion_condition_spec state :
  (length (answers state) < 10 →
   check_completion_condition state = "ask_question")
  ∧ (10 ≤ length (answers state) →
     check_completion_condition state = "generate_report")
  ∧ (∀ other, length (answers other) = length (answers state) →
     check_completion_condition other = check_completion_condition state).
Proof.
  unfold check_completion_condition. cbn [length questions].
  repeat split.
  - intros Hlt. by rewrite bool_decide_false by lia.
  - intros Hge. by rewrite bool_decide_true by lia.
  - by intros other ->.
Qed.

(** C7.  With no answers in the state, the generator posts the bot entry
    "No answers collected. Cannot generate report.", sends nothing to the
    model and returns the state it was given. *)
Theorem generate_report_logic_no_answers llm state w :
  answers state = [] →
  ∃ w', generate_report_logic llm state w = Returned state w'
    ∧ chat_history w'
      = chat_history w
        ++ [Message bot (py "No answers collected. Cannot generate report.")]
    ∧ llm_prompts w' = llm_prompts w
    ∧ same_session w w'.
Proof.
  intros Hnil. eexists. split; [by apply generate_report_logic_empty|].
  by repeat split.
Qed.

(** C9.  Clicking the reset button puts the session back to a fresh one,
    whatever it was before: no answers, an empty transcript and the three
    flags false. *)
Theorem reset_restores_fresh_session submitted w :
  let w' := world_of (reset_button (Widgets submitted true) w) in
  graph_state w' = graph_state initial_world
  ∧ answers (graph_state w') = []
  ∧ chat_history w' = []
  ∧ interview_started w' = false
  ∧ interview_complete w' = false
  ∧ report_generated w' = false.
Proof. cbn zeta. rewrite reset_button_run. cbn. by rewrite answers_singleton. Qed.

(** The same through the script: in a started session with no report due,
    a click with no text submitted resets the session and asks for a
    rerun. *)
Lemma script_reset llm w :
  interview_started w || interview_complete w = true →
  length (answers (graph_state w)) < length questions
  ∨ report_generated w = true →
  script llm (Widgets None true) w
  = Raised RerunException
      (World {["answers" := []]} [] false false false (llm_prompts w)).
Proof.
  intros Hstarted Hidle. rewrite script_after_start by done. cbn zeta.
  case_bool_decide as Hlt; [done|].
  destruct Hidle as [?| ->]; [lia|done].
Qed.

(** C10.  The collector has no bound of its own: from a state with ten
    answers, any input with a non-empty trimmed form gives a state with
    eleven.  The script does not get there: with ten answers stored it never
    calls the collector, so a run leaves at most ten answers behind. *)
Theorem collect_answer_logic_unbounded state user_input w :
  length (answers state) = 10 →
  strip user_input ≠ [] →
  (∃ new_state w',
     collect_answer_logic state user_input w = Returned new_state w'
     ∧ length (answers new_state) = 11)
  ∧ (∀ llm clicked,
       graph_state w = state →
       let w' := world_of (script llm (Widgets (Some user_input) clicked) w) in
       graph_state w' = state ∨ graph_state w' = {["answers" := []]}).
Proof.
  intros Hlen Hne. split.
  - rewrite collect_answer_logic_run. apply truthy_true in Hne as ->.
    do 2 eexists. split; [done|].
    rewrite answers_insert, length_app, Hlen. done.
  - intros llm clicked <-. cbn zeta.
    destruct (script_graph_state llm (Widgets (Some user_input) clicked) w)
      as [?|[?|[Hlt _]]]; [by left|by right|].
    cbn in Hlt. lia.
Qed.

(** *** Searching a string *)

Lemma find_from_sound needle hay i :
  find_from needle hay = Some i →
  ∃ pre post, hay = pre ++ needle ++ post ∧ length pre = i.
Proof.
  revert i. induction hay as [|c hay IH]; intros i; cbn [find_from].
  - case_bool_decide as Htake; [|done]. intros [= <-].
    exists [], (drop (length needle) []). split; [|done].
    cbn [app]. by rewrite <- Htake at 1; rewrite take_drop.
  - case_bool_decide as Htake.
    + intros [= <-]. exists [], (drop (length needle) (c :: hay)).
      split; [|done]. cbn [app].
      by rewrite <- Htake at 1; rewrite take_drop.
    + destruct (find_from needle hay) as [j|]; [|done].
      intros [= <-]. destruct (IH j eq_refl) as (pre & post & -> & <-).
      by exists (c :: pre), post.
Qed.

Lemma occur_in_order_sound needles : ∀ hay,
  occur_in_order needles hay = true → pieces_in_order needles hay.
Proof.
  induction needles as [|n rest IH]; intros hay; cbn; [done|].
  destruct (find_from n hay) as [i|] eqn:Hfind; [|done].
  intros Hrest. apply find_from_sound in Hfind as (pre & post & -> & <-).
  exists pre, post. split; [done|]. apply IH.
  by rewrite drop_app_add, drop_app_length in Hrest.
Qed.

(** *** Calls of the model *)

Lemma not_grown {A} (l : list A) x : l ≠ l ++ [x].
Proof. intros Heq. apply (f_equal length) in Heq. rewrite length_app in Heq. cbn in Heq. lia. Qed.

(** The generator sends a prompt only for a non-empty answer list that is no
    longer than the question list, and then it is the prompt of those
    answers. *)
Lemma generate_report_logic_called llm state w p :
  llm_prompts (world_of (generate_report_logic llm state w)) = llm_prompts w ++ [p] →
  answers state ≠ [] ∧ length (answers state) ≤ length questions
  ∧ p = prompt_for (answers state).
Proof.
  destruct (decide (answers state = [])) as [Hnil|Hne].
  { rewrite generate_report_logic_empty by done. cbn. intros Heq.
    by apply not_grown in Heq. }
  destruct (decide (length (answers state) ≤ length questions)) as [Hlen|Hlen].
  - destruct (llm (prompt_for (answers state))) as [r|e] eqn:Hllm.
    + rewrite (generate_report_logic_ok llm state w r) by done. cbn.
      intros Heq%app_inv_head. by simplify_eq.
    + rewrite (generate_report_logic_error llm state w e) by done. cbn.
      intros Heq%app_inv_head. by simplify_eq.
  - rewrite generate_report_logic_overflow by lia. cbn. intros Heq.
    by apply not_grown in Heq.
Qed.

(** The script reaches the model only through the generator, in the report
    phase of a started session whose report is still due. *)
Lemma script_called llm inp w p :
  llm_prompts (world_of (script llm inp w)) = llm_prompts w ++ [p] →
  interview_started w || interview_complete w = true
  ∧ length questions ≤ length (answers (graph_state w))
  ∧ report_generated w = false
  ∧ llm_prompts (world_of (generate_report_logic llm (graph_state w)
                             (set_report_generated true w)))
    = llm_prompts w ++ [p].
Proof.
  assert (Hreset : llm_prompts (world_of (reset_button inp w)) = llm_prompts w).
  { rewrite reset_button_run. by destruct (button inp). }
  destruct (interview_started w || interview_complete w) eqn:Hstarted.
  - rewrite script_after_start by done. cbn zeta.
    case_bool_decide as Hlt.
    + intros Heq. exfalso. revert Heq.
      destruct (chat_input inp) as [user_answer|];
        [|rewrite Hreset; apply not_grown].
      destruct (truthy user_answer); [|rewrite Hreset; apply not_grown].
      rewrite collect_answer_logic_run.
      destruct (truthy (strip user_answer));
        cbn [world_of]; rewrite ask_question_logic_run; apply not_grown.
    + destruct (report_generated w).
      { rewrite Hreset. intros Heq. by apply not_grown in Heq. }
      intros Heq. repeat split; [lia|].
      by destruct (generate_report_logic _ _ _).
  - apply orb_false_elim in Hstarted as [Hs Hc].
    rewrite script_first_run by done. cbn [world_of].
    rewrite ask_question_logic_run. intros Heq. by apply not_grown in Heq.
Qed.

(** C6.  Whenever the model is called with a prompt and the call raises an
    exception, the generator catches it: it returns its state, and the
    transcript grows by exactly one bot entry that ends with the text of the
    exception.  A script run in which this happens still ends with
    [report_generated] and [interview_complete] both true. *)
Theorem report_failure_is_caught llm p e :
  llm p = inr e →
  (∀ state w,
     llm_prompts (world_of (generate_report_logic llm state w))
     = llm_prompts w ++ [p] →
     ∃ w', generate_report_logic llm state w = Returned state w'
       ∧ chat_history w'
         = chat_history w
           ++ [Message bot (py "Error generating report: " ++ exc_str e)]
       ∧ same_session w w')
  ∧ (∀ inp w,
       llm_prompts (world_of (script llm inp w)) = llm_prompts w ++ [p] →
       let w' := world_of (script llm inp w) in
       report_generated w' = true
       ∧ interview_complete w' = true
       ∧ graph_state w' = graph_state w
       ∧ chat_history w'
         = chat_history w
           ++ [Message bot (py "Error generating report: " ++ exc_str e)]).
Proof.
  intros Hllm. split.
  - intros state w (Hne & Hlen & ->)%generate_report_logic_called.
    eexists. split; [by apply generate_report_logic_error|]. by repeat split.
  - intros inp w (Hstarted & Hge & Hgen & Hcall)%script_called. cbn zeta.
    apply (generate_report_logic_called llm _ (set_report_generated true w))
      in Hcall as (Hne & Hlen & ->).
    rewrite script_after_start by done. cbn zeta.
    rewrite bool_decide_false, Hgen by lia.
    by rewrite (generate_report_logic_error llm _ _ e).
Qed.

(** C8.  For the ten sample answers the generator sends one prompt, which
    holds the ten question and answer pairs in order and the five section
    instructions in order; with a model that returns "REPORT_X" the
    transcript gains one bot entry, the report heading followed by exactly
    that text. *)
Theorem report_for_sample_answers w :
  let state : graph := {["answers" := sample_answers]} in
  ∃ prompt w',
    generate_report_logic (llm_returning (py "REPORT_X")) state w
    = Returned state w'
    ∧ llm_prompts w' = llm_prompts w ++ [prompt]
    ∧ pieces_in_order sample_pairs prompt
    ∧ pieces_in_order section_instructions prompt
    ∧ chat_history w'
      = chat_history w
        ++ [Message bot (py "### Final Evaluation Report:" ++ newline
                         ++ py "REPORT_X")]
    ∧ same_session w w'.
Proof.
  cbn zeta. exists (prompt_for sample_answers). eexists. split.
  { apply generate_report_logic_ok; rewrite answers_singleton;
      [done|cbn; lia|done]. }
  rewrite answers_singleton.
  split; [done|]. split; [|split].
  - apply occur_in_order_sound. by vm_compute.
  - apply occur_in_order_sound. by vm_compute.
  - by repeat split.
Qed.

(** *** The duplicate test of the presenter *)

Lemma endswith_app prefix suffix : endswith (prefix ++ suffix) suffix = true.
Proof.
  unfold endswith. rewrite length_app.
  rewrite bool_decide_true by lia. cbn [andb].
  apply bool_decide_eq_true.
  replace (length prefix + length suffix - length suffix) with (length prefix)
    by lia.
  apply drop_app_length.
Qed.

Lemma already_posted_question history n q :
  already_posted q (history ++ [question_entry n q]) = true.
Proof.
  unfold already_posted. rewrite last_snoc. cbn [msg_role content question_entry].
  rewrite bool_decide_true by done. cbn [andb].
  rewrite !app_assoc. apply endswith_app.
Qed.

Lemma already_posted_user history q a :
  already_posted q (history ++ [Message user a]) = false.
Proof. unfold already_posted. by rewrite last_snoc. Qed.

Lemma ask_posts_cases state history :
  ask_posts state history = []
  ∨ ∃ q, questions !! length (answers state) = Some q
         ∧ already_posted q history = false
         ∧ ask_posts state history = [question_entry (length (answers state)) q].
Proof.
  unfold ask_posts. destruct (questions !! _) as [q|]; [|by left].
  destruct (already_posted q history) eqn:Hposted; [by left|].
  right. by exists q.
Qed.

Lemma ask_posts_again state history :
  ask_posts state (history ++ ask_posts state history) = [].
Proof.
  destruct (ask_posts_cases state history) as [Hnil|(q & Hq & Hposted & Hone)].
  - rewrite Hnil, app_nil_r. exact Hnil.
  - rewrite Hone. unfold ask_posts. rewrite Hq.
    by rewrite already_posted_question.
Qed.

(** *** The transcript between two runs *)

Lemma dialogue_nil start qs : dialogue start qs [] = [].
Proof. by destruct qs. Qed.

Lemma dialogue_snoc qs : ∀ start ans q a,
  qs !! length ans = Some q →
  dialogue start qs (ans ++ [a])
  = dialogue start qs ans ++ [question_entry (start + length ans) q; Message user a].
Proof.
  induction qs as [|q0 qs IH]; intros start ans q a Hq; [done|].
  destruct ans as [|a0 ans].
  - cbn in Hq. simplify_eq. cbn [app length dialogue].
    by rewrite dialogue_nil, Nat.add_0_r.
  - cbn [app length dialogue]. rewrite (IH (S start) ans q a Hq).
    by replace (S start + length ans) with (start + S (length ans)) by lia.
Qed.

Lemma transcript_shape_initial : transcript_shape initial_world.
Proof. unfold transcript_shape. cbn. by rewrite answers_singleton. Qed.

Lemma transcript_shape_reset inp w :
  transcript_shape w → transcript_shape (world_of (reset_button inp w)).
Proof.
  intros Hshape. rewrite reset_button_run. destruct (button inp); [|done].
  unfold transcript_shape. cbn. by rewrite answers_singleton.
Qed.

Lemma pending_question_Some n q :
  questions !! n = Some q → pending_question n = [question_entry n q].
Proof. unfold pending_question. by intros ->. Qed.

Lemma ask_posts_after_answer state history a :
  ask_posts state (history ++ [Message user a])
  = pending_question (length (answers state)).
Proof.
  unfold ask_posts, pending_question.
  destruct (questions !! _); [|done]. by rewrite already_posted_user.
Qed.

Lemma ask_posts_first state :
  ask_posts state [] = pending_question (length (answers state)).
Proof. unfold ask_posts, pending_question. by destruct (questions !! _). Qed.

Lemma ask_posts_pending state history :
  ask_posts state (history ++ pending_question (length (answers state))) = [].
Proof.
  unfold ask_posts, pending_question.
  destruct (questions !! _) as [q|]; [|done].
  by rewrite already_posted_question.
Qed.

Lemma script_transcript_shape llm inp w :
  transcript_shape w → transcript_shape (world_of (script llm inp w)).
Proof.
  intros Hshape. pose proof Hshape as Hw. unfold transcript_shape in Hshape.
  destruct (interview_started w) eqn:Hs.
  - rewrite script_after_start by (by rewrite Hs). cbn zeta.
    destruct Hshape as (Hlen & Hcomplete & closing & Hhist & Hclosing).
    case_bool_decide as Hlt.
    + destruct (report_generated w) eqn:Hgen.
      { destruct Hclosing as [Heq _]. lia. }
      subst closing. rewrite app_nil_r in Hhist.
      destruct (chat_input inp) as [u|]; [|by apply transcript_shape_reset].
      destruct (truthy u); [|by apply transcript_shape_reset].
      rewrite collect_answer_logic_run.
      destruct (truthy (strip u)) eqn:Hu;
        cbn [world_of]; rewrite ask_question_logic_run; fields.
      * unfold transcript_shape. fields. rewrite Hs, Hgen, answers_insert.
        split; [rewrite length_app; cbn [length]; lia|].
        split; [done|]. exists []. split; [|done].
        rewrite app_nil_r, ask_posts_after_answer, answers_insert, Hhist.
        destruct (lookup_lt_is_Some_2 questions
                    (length (answers (graph_state w)))) as [q Hq]; [done|].
        rewrite (dialogue_snoc _ _ _ q) by done.
        rewrite (pending_question_Some _ q) by done.
        cbn [Nat.add]. by rewrite <- !app_assoc.
      * rewrite Hhist at 2. rewrite ask_posts_pending, app_nil_r.
        by destruct w.
    + assert (Hfull : length (answers (graph_state w)) = length questions)
        by lia.
      destruct (report_generated w) eqn:Hgen;
        [by apply transcript_shape_reset|].
      subst closing. rewrite app_nil_r in Hhist.
      assert (Hne : answers (graph_state w) ≠ []).
      { intros Hnil. rewrite Hnil in Hfull. done. }
      destruct (llm (prompt_for (answers (graph_state w)))) as [r|e] eqn:Hllm.
      * rewrite (generate_report_logic_ok llm _ _ r) by done.
        unfold transcript_shape. fields. rewrite Hs.
        split; [done|]. split; [done|]. eexists.
        split; [by rewrite Hhist, <- app_assoc|].
        split; [done|]. eexists. split; [done|]. split; [done|].
        exists r. by left.
      * rewrite (generate_report_logic_error llm _ _ e) by done.
        unfold transcript_shape. fields. rewrite Hs.
        split; [done|]. split; [done|]. eexists.
        split; [by rewrite Hhist, <- app_assoc|].
        split; [done|]. eexists. split; [done|]. split; [done|].
        exists (exc_str e). by right.
  - destruct Hshape as (Hans & Hhist & Hc & Hg).
    rewrite script_first_run by done. rewrite ask_question_logic_run.
    unfold transcript_shape. fields.
    rewrite Hhist, Hans, Hc, Hg, ask_posts_first, Hans.
    split; [cbn; lia|]. split; [done|]. exists []. by rewrite app_nil_r.
Qed.

Lemma reachable_transcript_shape w : reachable w → transcript_shape w.
Proof.
  unfold reachable. revert w. apply (rtc_ind_r transcript_shape).
  - apply transcript_shape_initial.
  - intros w1 w2 _ [llm inp w0] IH. by apply script_transcript_shape.
Qed.

(** *** Where the question entries sit in the transcript *)

Lemma dialogue_length qs : ∀ start ans,
  length ans ≤ length qs → length (dialogue start qs ans) = 2 * length ans.
Proof.
  induction qs as [|q qs IH]; intros start [|a ans] Hlen; cbn in *; try lia.
  rewrite IH by lia. lia.
Qed.

Lemma dialogue_lookup qs : ∀ start ans k m,
  dialogue start qs ans !! k = Some m →
  (∃ i q, k = 2 * i ∧ i < length ans ∧ qs !! i = Some q
          ∧ m = question_entry (start + i) q)
  ∨ msg_role m = user.
Proof.
  induction qs as [|q qs IH]; intros start [|a ans] k m; cbn; try done.
  destruct k as [|[|k]]; cbn.
  - intros [= <-]. left. exists 0, q.
    split_and!; [done|lia|done|by rewrite Nat.add_0_r].
  - intros [= <-]. by right.
  - intros [(i & q' & -> & Hi & Hq & ->)|Hrole]%IH; [left|by right].
    exists (S i), q'. split_and!; [lia|lia|done|]. f_equal. lia.
Qed.

Lemma dialogue_lookup_question qs : ∀ start ans i q,
  i < length ans → qs !! i = Some q →
  dialogue start qs ans !! (2 * i) = Some (question_entry (start + i) q).
Proof.
  induction qs as [|q0 qs IH]; intros start [|a ans] i q Hi Hq;
    try (cbn in *; done || lia).
  destruct i as [|i].
  - cbn in *. simplify_eq. by rewrite Nat.add_0_r.
  - replace (2 * S i) with (S (S (2 * i))) by lia.
    cbn [dialogue].
    change ((question_entry start q0 :: Message user a
             :: dialogue (S start) qs ans) !! S (S (2 * i)))
      with (dialogue (S start) qs ans !! (2 * i)).
    rewrite (IH (S start) ans i q) by (done || (cbn in Hi; lia)).
    do 2 f_equal. lia.
Qed.

Lemma question_entries_NoDup : NoDup (imap question_entry questions).
Proof. apply (bool_decide_unpack _). by vm_compute. Qed.

Lemma question_entry_inj n n' q q' :
  questions !! n = Some q → questions !! n' = Some q' →
  question_entry n q = question_entry n' q' → n = n'.
Proof.
  intros Hq Hq' Heq.
  apply (NoDup_lookup _ n n' (question_entry n q) question_entries_NoDup).
  - by rewrite list_lookup_imap, Hq.
  - by rewrite list_lookup_imap, Hq', Heq.
Qed.

Lemma closing_is_no_question m n q : is_closing m → m ≠ question_entry n q.
Proof.
  intros (_ & text & [Hm|Hm]) ->; apply (f_equal head) in Hm; by vm_compute in Hm.
Qed.

Lemma shape_question_present w n q :
  transcript_shape w → interview_started w = true →
  questions !! n = Some q → n ≤ length (answers (graph_state w)) →
  chat_history w !! (2 * n) = Some (question_entry n q).
Proof.
  unfold transcript_shape. intros Hshape Hs Hq Hn. rewrite Hs in Hshape.
  destruct Hshape as (Hlen & _ & closing & -> & _).
  destruct (decide (n < length (answers (graph_state w)))) as [Hlt|Hge].
  - rewrite lookup_app_l by (rewrite dialogue_length by done; lia).
    by rewrite (dialogue_lookup_question _ _ _ _ q).
  - assert (n = length (answers (graph_state w))) as -> by lia.
    rewrite lookup_app_r by (rewrite dialogue_length by done; lia).
    rewrite dialogue_length, Nat.sub_diag by done.
    by rewrite (pending_question_Some _ q).
Qed.

Lemma shape_question_position w n q i :
  transcript_shape w → questions !! n = Some q →
  chat_history w !! i = Some (question_entry n q) → i = 2 * n.
Proof.
  unfold transcript_shape. intros Hshape Hq Hi.
  destruct (interview_started w).
  2:{ destruct Hshape as (_ & Hnil & _). by rewrite Hnil in Hi. }
  destruct Hshape as (Hlen & _ & closing & Hhist & Hclosing).
  rewrite Hhist in Hi.
  apply lookup_app_Some in Hi as [Hi|[Hge Hi]].
  { apply dialogue_lookup in Hi as [(j & q' & -> & Hj & Hq' & Heq)|Hrole];
      [|done].
    by rewrite (question_entry_inj _ _ _ _ Hq Hq' Heq). }
  rewrite dialogue_length in Hge, Hi by done.
  apply lookup_app_Some in Hi as [Hi|[Hge' Hi]].
  - unfold pending_question in Hi.
    destruct (questions !! length (answers (graph_state w))) as [q'|] eqn:Hq';
      [|done].
    apply list_lookup_singleton_Some in Hi as [Hi Heq].
    rewrite (question_entry_inj _ _ _ _ Hq Hq' (eq_sym Heq)). lia.
  - destruct (report_generated w).
    + destruct Hclosing as (_ & m & -> & Hm).
      apply list_lookup_singleton_Some in Hi as [_ ->].
      destruct (closing_is_no_question _ n q Hm eq_refl).
    + by subst closing.
Qed.

(** C4, as stated, fails: the entry posted for the first question is not the
    bare question text, it carries the prefix "**Q1:** ". *)
Lemma first_question_entry_has_prefix :
  ∃ m q,
    chat_history
      (world_of (ask_question_logic (graph_state initial_world) initial_world))
    = [m]
    ∧ questions !! 0 = Some q
    ∧ content m = py "**Q1:** What is your name?"
    ∧ content m ≠ q.
Proof. do 2 eexists. split_and!; [by vm_compute..|by vm_compute]. Qed.

(** C4, amended.  For every N from 1 to 10, the entry the presenter posts
    for the Nth question is a bot entry whose content is "**Q", the number
    N, ":** " and then the Nth question text verbatim; it is posted unless
    the transcript already ends with that question.  In every reachable
    started session that has N - 1 answers or more, this entry sits at
    index 2 (N - 1) of the transcript. *)
Theorem question_entry_carries_question N state w :
  1 ≤ N ≤ 10 →
  length (answers state) = N - 1 →
  ∃ q, questions !! (N - 1) = Some q
    ∧ chat_history (world_of (ask_question_logic state w))
      = chat_history w
        ++ (if already_posted q (chat_history w) then []
            else [Message bot (py "**Q" ++ py_str_nat N ++ py ":** " ++ q)])
    ∧ ∀ w0, reachable w0 → interview_started w0 = true →
        N - 1 ≤ length (answers (graph_state w0)) →
        chat_history w0 !! (2 * (N - 1))
        = Some (Message bot (py "**Q" ++ py_str_nat N ++ py ":** " ++ q)).
Proof.
  intros HN Hlen.
  destruct (lookup_lt_is_Some_2 questions (N - 1)) as [q Hq]; [cbn; lia|].
  assert (Hentry : question_entry (N - 1) q
                   = Message bot (py "**Q" ++ py_str_nat N ++ py ":** " ++ q)).
  { unfold question_entry. by replace (N - 1 + 1) with N by lia. }
  exists q. split_and!; [done| |].
  - rewrite ask_question_logic_run. cbn [world_of chat_history set_chat_history].
    unfold ask_posts. rewrite Hlen, Hq, Hentry. done.
  - intros w0 Hreach Hstarted Hn. rewrite <- Hentry.
    apply shape_question_present; [by apply reachable_transcript_shape|done..].
Qed.

(** C5, as stated, fails: after the tenth answer of an interview the
    presenter, called twice in a row as the script calls it, posts
    nothing at all. *)
Lemma ask_twice_after_last_answer :
  let w := run_session (interview_runs (llm_returning (py "REPORT_X")) sample_answers) in
  let state := graph_state w in
  length (answers state) = 10
  ∧ chat_history
      (world_of (ask_question_logic state
                   (world_of (ask_question_logic state w))))
    = chat_history w.
Proof. cbn zeta. split; by vm_compute. Qed.

(** C5, amended.  Calling the presenter twice in a row on the same state
    posts at most one entry: the question entry for the current count when
    there is a question left and the transcript does not already end with
    it, and nothing otherwise.  The second call never posts.  Both calls
    return the state they were given and leave the stored answers, the flags
    and the prompt log alone.  In a reachable session no question entry
    stands at two places of the transcript. *)
Theorem ask_question_logic_idempotent state w :
  let n := length (answers state) in
  ∃ w1 posts,
    ask_question_logic state w = Returned state w1
    ∧ ask_question_logic state w1 = Returned state w1
    ∧ chat_history w1 = chat_history w ++ posts
    ∧ (posts = [] ∨ ∃ q, questions !! n = Some q ∧ posts = [question_entry n q])
    ∧ (∀ q, questions !! n = Some q →
         posts = if already_posted q (chat_history w) then []
                 else [question_entry n q])
    ∧ (length questions ≤ n → posts = [])
    ∧ same_session w w1
    ∧ llm_prompts w1 = llm_prompts w
    ∧ ∀ w0 N q i j,
        reachable w0 → questions !! N = Some q →
        chat_history w0 !! i = Some (question_entry N q) →
        chat_history w0 !! j = Some (question_entry N q) →
        i = j.
Proof.
  cbn zeta. do 2 eexists. split; [apply ask_question_logic_run|].
  split_and!.
  - rewrite ask_question_logic_run. cbn [chat_history set_chat_history].
    by rewrite ask_posts_again, app_nil_r.
  - done.
  - destruct (ask_posts_cases state (chat_history w))
      as [?|(q & ? & _ & ?)]; [by left|right; by exists q].
  - intros q Hq. unfold ask_posts. by rewrite Hq.
  - intros Hn. unfold ask_posts. by rewrite lookup_ge_None_2.
  - done.
  - done.
  - intros w0 N q i j Hreach%reachable_transcript_shape Hq Hi Hj.
    rewrite (shape_question_position w0 N q i), (shape_question_position w0 N q j);
      done.
Qed.

(** ** The theorems at work on concrete sessions *)

(** A whole interview with the sample answers reaches ten answers, and the
    bound holds there. *)
Lemma answers_never_exceed_questions_witness :
  let w := run_session (interview_runs (llm_returning (py "REPORT_X")) sample_answers) in
  length (answers (graph_state w)) = 10
  ∧ (length (answers (graph_state w)) ≤ 10
     ∧ length (answers (graph_state w)) ≤ length questions).
Proof.
  cbn zeta. split; [by vm_compute|].
  apply answers_never_exceed_questions, reachable_run_session.
Defined.

(** " Alex " is stored as "Alex"; a blank submission is dropped. *)
Lemma collect_answer_logic_contract_witness :
  (∃ new_state,
     collect_answer_logic (graph_state initial_world) (py " Alex ") initial_world
     = Returned new_state
         (set_chat_history [Message user (py "Alex")] initial_world)
     ∧ answers new_state = [py "Alex"])
  ∧ collect_answer_logic (graph_state initial_world) (py "   ") initial_world
    = Returned (graph_state initial_world) initial_world.
Proof.
  split.
  - destruct (collect_answer_logic_contract (graph_state initial_world)
                (py " Alex ") initial_world) as (_ & Hstored & _).
    destruct Hstored as (new_state & Hrun & Hanswers & _); [by vm_compute|].
    exists new_state. split; [exact Hrun|exact Hanswers].
  - apply (collect_answer_logic_contract (graph_state initial_world)
             (py "   ") initial_world). by vm_compute.
Defined.

(** Nine answers ask on, ten answers call for the report. *)
Lemma check_completion_condition_spec_witness :
  check_completion_condition {["answers" := take 9 sample_answers]} = "ask_question"
  ∧ check_completion_condition {["answers" := sample_answers]} = "generate_report".
Proof.
  split.
  - apply check_completion_condition_spec. vm_compute. lia.
  - apply check_completion_condition_spec. vm_compute. lia.
Defined.

(** The third question is posted with its number in front. *)
Lemma question_entry_carries_question_witness :
  ∃ q, questions !! 2 = Some q
    ∧ chat_history
        (world_of (ask_question_logic {["answers" := take 2 sample_answers]}
                     initial_world))
      = [Message bot (py "**Q" ++ py_str_nat 3 ++ py ":** " ++ q)].
Proof.
  destruct (question_entry_carries_question 3
              {["answers" := take 2 sample_answers]} initial_world)
    as (q & Hq & Hposted & _); [lia|by vm_compute|].
  exists q. split; [exact Hq|exact Hposted].
Defined.

(** On a fresh session the first question is posted once by two calls. *)
Lemma ask_question_logic_idempotent_witness :
  ∃ w1,
    ask_question_logic (graph_state initial_world) initial_world
    = Returned (graph_state initial_world) w1
    ∧ ask_question_logic (graph_state initial_world) w1
      = Returned (graph_state initial_world) w1
    ∧ chat_history w1 = [question_entry 0 (py "What is your name?")].
Proof.
  destruct (ask_question_logic_idempotent (graph_state initial_world)
              initial_world)
    as (w1 & posts & Hfirst & Hsecond & Hhistory & _ & Hposts & _).
  exists w1. split_and!; [exact Hfirst|exact Hsecond|].
  rewrite Hhistory. rewrite (Hposts (py "What is your name?")); by vm_compute.
Defined.

(** A model that times out at the end of a whole interview: the session is
    closed all the same, with the error as its last entry. *)
Lemma report_failure_is_caught_witness :
  let llm := llm_raising timeout_error in
  let w := run_session (interview_runs llm sample_answers) in
  let w' := world_of (script llm (Widgets None false) w) in
  report_generated w = false
  ∧ report_generated w' = true
  ∧ interview_complete w' = true
  ∧ last (chat_history w')
    = Some (Message bot (py "Error generating report: request timed out")).
Proof.
  cbn zeta. split; [by vm_compute|].
  destruct (report_failure_is_caught (llm_raising timeout_error)
              (prompt_for sample_answers) timeout_error eq_refl) as [_ Hscript].
  destruct (Hscript (Widgets None false)
              (run_session (interview_runs (llm_raising timeout_error)
                              sample_answers)))
    as (Hgenerated & Hcomplete & _ & Hhistory); [by vm_compute|].
  split_and!; [exact Hgenerated|exact Hcomplete|].
  rewrite Hhistory. by rewrite last_snoc.
Defined.

(** A state without the "answers" key counts as having no answers. *)
Lemma generate_report_logic_no_answers_witness :
  ∃ w', generate_report_logic (llm_raising timeout_error) ∅ initial_world
        = Returned ∅ w'
    ∧ chat_history w'
      = [Message bot (py "No answers collected. Cannot generate report.")]
    ∧ llm_prompts w' = [].
Proof.
  destruct (generate_report_logic_no_answers (llm_raising timeout_error) ∅
              initial_world)
    as (w' & Hrun & Hhistory & Hprompts & _); [by vm_compute|].
  exists w'. split_and!; [exact Hrun|exact Hhistory|exact Hprompts].
Defined.

(** An eleventh answer goes through the collector; the script keeps the
    stored ten. *)
Lemma collect_answer_logic_unbounded_witness :
  let w := run_session (interview_runs (llm_returning (py "REPORT_X")) sample_answers) in
  (∃ new_state w',
     collect_answer_logic (graph_state w) (py " one more ") w
     = Returned new_state w'
     ∧ length (answers new_state) = 11)
  ∧ length (answers (graph_state
              (world_of (script (llm_returning (py "REPORT_X"))
                           (Widgets (Some (py " one more ")) false) w))))
    = 10.
Proof.
  cbn zeta.
  destruct (collect_answer_logic_unbounded
              (graph_state (run_session (interview_runs
                 (llm_returning (py "REPORT_X")) sample_answers)))
              (py " one more ")
              (run_session (interview_runs
                 (llm_returning (py "REPORT_X")) sample_answers)))
    as [Hcollect _]; [by vm_compute|by vm_compute|].
  split; [exact Hcollect|by vm_compute].
Defined.

(** * Further properties of the code *)

(** *** More on trimming *)

Lemma lstrip_all_space s : all_space s → lstrip s = [].
Proof.
  induction 1 as [|c s Hc _ IH]; [done|]. cbn. by rewrite Hc.
Qed.

Lemma lstrip_app s t :
  lstrip (s ++ t) = if truthy (lstrip s) then lstrip s ++ t else lstrip t.
Proof.
  induction s as [|c s IH]; [done|]. cbn.
  by destruct (py_isspace c).
Qed.

Lemma lstrip_fixed s :
  (∀ c, head s = Some c → py_isspace c = false) → lstrip s = s.
Proof.
  destruct s as [|c s]; [done|]. intros Hhd. cbn.
  by rewrite (Hhd c eq_refl).
Qed.

Lemma rstrip_fixed s :
  (∀ c, last s = Some c → py_isspace c = false) → rstrip s = s.
Proof.
  intros Hlast. unfold rstrip. rewrite lstrip_fixed.
  - apply reverse_involutive.
  - intros c. rewrite head_reverse. apply Hlast.
Qed.

Lemma rstrip_app_space s post : all_space post → rstrip (s ++ post) = rstrip s.
Proof.
  intros Hpost. unfold rstrip. rewrite reverse_app, lstrip_app.
  by rewrite (lstrip_all_space (reverse post)) by by apply Forall_reverse.
Qed.

Lemma strip_all_space s : all_space s → strip s = [].
Proof. intros Hs. unfold strip. by rewrite lstrip_all_space. Qed.

Lemma strip_fixed s :
  (∀ c, head s = Some c → py_isspace c = false) →
  (∀ c, last s = Some c → py_isspace c = false) →
  strip s = s.
Proof.
  intros Hhd Hlast. unfold strip. rewrite lstrip_fixed by done.
  by apply rstrip_fixed.
Qed.

Lemma strip_idempotent s : strip (strip s) = strip s.
Proof.
  destruct (strip_split s) as (_ & _ & _ & _ & _ & Hhd & Hlast).
  by apply strip_fixed.
Qed.

Lemma strip_padded pre s post :
  all_space pre → all_space post → strip (pre ++ s ++ post) = strip s.
Proof.
  intros Hpre Hpost. unfold strip.
  rewrite lstrip_app, (lstrip_all_space pre) by done. cbn [truthy].
  rewrite lstrip_app. destruct (lstrip s) as [|c t] eqn:Hs; cbn [truthy].
  - by rewrite (lstrip_all_space post).
  - by apply rstrip_app_space.
Qed.

Lemma strip_nonempty s : strip s ≠ [] → s ≠ [].
Proof. by intros Hne ->. Qed.

(** *** One run of the script, phase by phase *)

Lemma script_submit llm w u clicked :
  interview_started w || interview_complete w = true →
  length (answers (graph_state w)) < length questions →
  u ≠ [] →
  script llm (Widgets (Some u) clicked) w
  = Raised RerunException
      (if truthy (strip u) then
         World (<["answers" := answers (graph_state w) ++ [strip u]]> (graph_state w))
               (chat_history w ++ Message user (strip u)
                  :: pending_question (S (length (answers (graph_state w)))))
               (interview_complete w) (report_generated w)
               (interview_started w) (llm_prompts w)
       else
         set_chat_history
           (chat_history w ++ ask_posts (graph_state w) (chat_history w)) w).
Proof.
  intros Hstarted Hlt Hu. rewrite script_after_start by done. cbn zeta.
  rewrite bool_decide_true by done. cbn [chat_input].
  apply truthy_true in Hu as ->. rewrite collect_answer_logic_run.
  destruct (truthy (strip u)); rewrite ask_question_logic_run; fields.
  - rewrite ask_posts_after_answer, answers_insert, length_app, Nat.add_1_r.
    by rewrite <- app_assoc.
  - by destruct w.
Qed.

Lemma script_report llm inp w :
  interview_started w || interview_complete w = true →
  length (answers (graph_state w)) = length questions →
  report_generated w = false →
  script llm inp w
  = Raised RerunException
      (World (graph_state w)
             (chat_history w
              ++ [Message bot
                    match llm (prompt_for (answers (graph_state w))) with
                    | inl report_content => report_heading ++ report_content
                    | inr e => py "Error generating report: " ++ exc_str e
                    end])
             true true (interview_started w)
             (llm_prompts w ++ [prompt_for (answers (graph_state w))])).
Proof.
  intros Hstarted Hfull Hgen. rewrite script_after_start by done. cbn zeta.
  rewrite bool_decide_false, Hgen by lia.
  assert (Hne : answers (graph_state w) ≠ []).
  { intros Hnil. by rewrite Hnil in Hfull. }
  destruct (llm (prompt_for (answers (graph_state w)))) as [r|e] eqn:Hllm.
  - by rewrite (generate_report_logic_ok llm _ _ r) by (done || lia).
  - by rewrite (generate_report_logic_error llm _ _ e) by (done || lia).
Qed.

Lemma script_finished llm inp w :
  interview_started w || interview_complete w = true →
  length questions ≤ length (answers (graph_state w)) →
  report_generated w = true →
  script llm inp w = reset_button inp w.
Proof.
  intros Hstarted Hfull Hgen. rewrite script_after_start by done. cbn zeta.
  by rewrite bool_decide_false, Hgen by lia.
Qed.

Lemma script_waiting llm inp w :
  interview_started w || interview_complete w = true →
  length (answers (graph_state w)) < length questions →
  chat_input inp = None ∨ chat_input inp = Some [] →
  script llm inp w = reset_button inp w.
Proof.
  intros Hstarted Hlt Hinput. rewrite script_after_start by done. cbn zeta.
  rewrite bool_decide_true by done. by destruct Hinput as [-> | ->].
Qed.

Lemma shape_started w :
  transcript_shape w → interview_started w = false →
  interview_complete w = false ∧ report_generated w = false
  ∧ answers (graph_state w) = [] ∧ chat_history w = [].
Proof.
  unfold transcript_shape. intros Hshape Hs. rewrite Hs in Hshape.
  by destruct Hshape as (? & ? & ? & ?).
Qed.

Lemma shape_asking w :
  transcript_shape w → interview_started w = true →
  length (answers (graph_state w)) < length questions →
  report_generated w = false
  ∧ chat_history w
    = dialogue 0 questions (answers (graph_state w))
      ++ pending_question (length (answers (graph_state w))).
Proof.
  unfold transcript_shape. intros Hshape Hs Hlt. rewrite Hs in Hshape.
  destruct Hshape as (_ & _ & closing & Hhist & Hclosing).
  destruct (report_generated w).
  - destruct Hclosing as [Hfull _]. lia.
  - subst closing. by rewrite app_nil_r in Hhist.
Qed.

(** *** The report generator on any answer list *)

Lemma format_blocks_length qs : ∀ start ans,
  length ans ≤ length qs → length (format_blocks start qs ans) = length ans.
Proof.
  induction qs as [|q qs IH]; intros start [|a ans] Hlen; cbn in *; try lia.
  by rewrite IH by lia.
Qed.

Lemma format_blocks_lookup qs : ∀ start ans i q a,
  qs !! i = Some q → ans !! i = Some a →
  format_blocks start qs ans !! i
  = Some (py "Q" ++ py_str_nat (start + i + 1) ++ py ": " ++ q ++ newline
          ++ py "A" ++ py_str_nat (start + i + 1) ++ py ": " ++ a).
Proof.
  induction qs as [|q0 qs IH]; intros start [|a0 ans] i q a Hq Ha; try done.
  destruct i as [|i]; cbn in Hq, Ha.
  - simplify_eq. cbn [format_blocks]. by rewrite Nat.add_0_r.
  - cbn [format_blocks].
    change ((?x :: format_blocks (S start) qs ans) !! S i)
      with (format_blocks (S start) qs ans !! i).
    rewrite (IH (S start) ans i q a Hq Ha).
    by replace (S start + i + 1) with (start + S i + 1) by lia.
Qed.

(** X1.  Given between one and ten answers, the generator never raises,
    whatever the model does: it sends exactly one prompt and posts exactly
    one bot entry, the headed report if the model returned text and the
    error notice if it raised, and returns its state.  The prompt is the
    template around one numbered block per answer given, block i pairing
    question i with answer i; nothing requires all ten answers. *)
Theorem generate_report_logic_with_answers llm state w :
  answers state ≠ [] →
  length (answers state) ≤ length questions →
  ∃ blocks,
    generate_report_logic llm state w
    = Returned state
        (World (graph_state w)
               (chat_history w
                ++ [Message bot
                      match llm (report_prompt (py_join newline blocks)) with
                      | inl report_content => report_heading ++ report_content
                      | inr e => py "Error generating report: " ++ exc_str e
                      end])
               (interview_complete w) (report_generated w)
               (interview_started w)
               (llm_prompts w ++ [report_prompt (py_join newline blocks)]))
    ∧ length blocks = length (answers state)
    ∧ ∀ i a, answers state !! i = Some a →
        ∃ q, questions !! i = Some q
          ∧ blocks !! i
            = Some (py "Q" ++ py_str_nat (i + 1) ++ py ": " ++ q ++ newline
                    ++ py "A" ++ py_str_nat (i + 1) ++ py ": " ++ a).
Proof.
  intros Hne Hlen. exists (format_blocks 0 questions (answers state)).
  split_and!.
  - fold (prompt_for (answers state)).
    destruct (llm (prompt_for (answers state))) as [r|e] eqn:Hllm.
    + by rewrite (generate_report_logic_ok llm _ _ r).
    + by rewrite (generate_report_logic_error llm _ _ e).
  - by apply format_blocks_length.
  - intros i a Ha.
    destruct (lookup_lt_is_Some_2 questions i) as [q Hq].
    { apply lookup_lt_Some in Ha. lia. }
    exists q. split; [done|].
    by rewrite (format_blocks_lookup _ _ _ _ q a).
Qed.

(** X2.  With more answers than questions the generator dies of an
    [IndexError] while formatting, before it posts anything or calls the
    model.  The script does not catch it: a started session in that state
    ends the run with [report_generated] already set and
    [interview_complete] still unset, so the report is not tried again. *)
Theorem generate_report_logic_too_many_answers llm state w :
  length questions < length (answers state) →
  generate_report_logic llm state w = Raised (Exception IndexError) w
  ∧ ∀ inp,
      graph_state w = state →
      interview_started w || interview_complete w = true →
      report_generated w = false →
      script llm inp w
      = Raised (Exception IndexError) (set_report_generated true w)
      ∧ script llm (Widgets None false) (set_report_generated true w)
        = Returned tt (set_report_generated true w).
Proof.
  intros Hlen. split; [by apply generate_report_logic_overflow|].
  intros inp <- Hstarted Hgen. split.
  - rewrite script_after_start by done. cbn zeta.
    rewrite bool_decide_false, Hgen by lia.
    by rewrite generate_report_logic_overflow.
  - rewrite script_finished; [done|done| |done].
    cbn [graph_state set_report_generated]. lia.
Qed.

(** *** Reachable sessions *)

Lemma shape_bounded w :
  transcript_shape w → length (answers (graph_state w)) ≤ length questions.
Proof.
  unfold transcript_shape. intros Hshape. destruct (interview_started w).
  - by destruct Hshape as (? & _).
  - destruct Hshape as (-> & _). cbn. lia.
Qed.

Lemma shape_finished w :
  transcript_shape w → report_generated w = true →
  interview_started w = true
  ∧ length (answers (graph_state w)) = length questions.
Proof.
  unfold transcript_shape. intros Hshape Hgen. rewrite Hgen in Hshape.
  destruct (interview_started w).
  - by destruct Hshape as (_ & _ & closing & _ & ? & _).
  - by destruct Hshape as (_ & _ & _ & ?).
Qed.

(** X3.  From a reachable session no run of the script ends in an uncaught
    exception, whatever the widgets return and whatever the model does:
    a run either changes nothing and reaches its end, or it ends in the
    rerun request of [st.rerun()]. *)
Theorem reachable_run_never_fails llm inp w :
  reachable w →
  script llm inp w = Returned tt w
  ∨ ∃ w', script llm inp w = Raised RerunException w'.
Proof.
  intros Hshape%reachable_transcript_shape.
  assert (Hreset : reset_button inp w = Returned tt w
                   ∨ ∃ w', reset_button inp w = Raised RerunException w').
  { rewrite reset_button_run. destruct (button inp); [right|left]; by eauto. }
  destruct (interview_started w) eqn:Hs.
  - assert (Hstarted : interview_started w || interview_complete w = true)
      by by rewrite Hs.
    pose proof (shape_bounded w Hshape) as Hlen.
    destruct (decide (length (answers (graph_state w)) < length questions))
      as [Hlt|Hge].
    + destruct (chat_input inp) as [[|c u]|] eqn:Hinput.
      * rewrite script_waiting by auto. exact Hreset.
      * right. destruct inp as [submitted clicked]. cbn in Hinput. subst.
        rewrite script_submit by done. by eauto.
      * rewrite script_waiting by auto. exact Hreset.
    + destruct (report_generated w) eqn:Hgen.
      * rewrite script_finished by (done || lia). exact Hreset.
      * right. rewrite script_report by (done || lia). by eauto.
  - destruct (shape_started w Hshape Hs) as (Hc & _).
    right. rewrite script_first_run by done. by eauto.
Qed.

Lemma user_texts_dialogue qs : ∀ start ans,
  length ans ≤ length qs → user_texts (dialogue start qs ans) = ans.
Proof.
  unfold user_texts.
  induction qs as [|q qs IH]; intros start [|a ans] Hlen; cbn in Hlen;
    try done; try lia.
  cbn [dialogue].
  rewrite filter_cons_False by done. rewrite filter_cons_True by done.
  rewrite fmap_cons. cbn [content]. f_equal. apply IH. lia.
Qed.

Lemma user_texts_pending n : user_texts (pending_question n) = [].
Proof. unfold pending_question. by destruct (questions !! n). Qed.

(** X4.  In every reachable session the user entries of the transcript are
    exactly the stored answers, in the same order. *)
Theorem transcript_holds_the_answers w :
  reachable w → user_texts (chat_history w) = answers (graph_state w).
Proof.
  intros Hshape%reachable_transcript_shape. unfold transcript_shape in Hshape.
  destruct (interview_started w).
  - destruct Hshape as (Hlen & _ & closing & -> & Hclosing).
    unfold user_texts. rewrite !filter_app, !fmap_app.
    fold (user_texts (dialogue 0 questions (answers (graph_state w)))).
    fold (user_texts (pending_question (length (answers (graph_state w))))).
    rewrite user_texts_dialogue, user_texts_pending by done.
    destruct (report_generated w).
    + destruct Hclosing as (_ & m & -> & Hrole & _).
      rewrite filter_cons_False by by rewrite Hrole.
      by rewrite app_nil_r.
    + subst closing. by rewrite app_nil_r.
  - by destruct Hshape as (-> & -> & _).
Qed.

(** X5.  In every reachable session [interview_complete] and
    [report_generated] agree; a report has only been generated in a started
    session with all ten answers; a session that is not started has no
    answers and an empty transcript; and a started session with n answers
    has 2 n transcript entries, one more while a question is open and one
    more once the report is generated. *)
Theorem reachable_flags w :
  reachable w →
  interview_complete w = report_generated w
  ∧ (report_generated w = true →
     interview_started w = true
     ∧ length (answers (graph_state w)) = length questions)
  ∧ (interview_started w = false →
     answers (graph_state w) = [] ∧ chat_history w = [])
  ∧ (interview_started w = true →
     length (chat_history w)
     = 2 * length (answers (graph_state w))
       + (if bool_decide (length (answers (graph_state w)) < length questions)
          then 1 else 0)
       + (if report_generated w then 1 else 0)).
Proof.
  intros Hshape%reachable_transcript_shape. unfold transcript_shape in Hshape.
  destruct (interview_started w).
  - destruct Hshape as (Hlen & Hcomplete & closing & Hhist & Hclosing).
    split_and!; [done| |done|].
    + intros Hgen. rewrite Hgen in Hclosing. by destruct Hclosing.
    + intros _. rewrite Hhist, !length_app, dialogue_length by done.
      assert (length (pending_question (length (answers (graph_state w))))
              = if bool_decide (length (answers (graph_state w)) < length questions)
                then 1 else 0) as ->.
      { unfold pending_question. case_bool_decide as Hlt.
        - by destruct (lookup_lt_is_Some_2 questions _ Hlt) as [q ->].
        - by rewrite lookup_ge_None_2 by lia. }
      destruct (report_generated w).
      * destruct Hclosing as (_ & m & -> & _). cbn [length]. lia.
      * subst closing. cbn [length]. lia.
  - destruct Hshape as (Hans & Hhist & Hc & Hg).
    split_and!; [congruence|congruence|done|done].
Qed.

(** An answer as the collector stores it: not empty, and free of white
    space at both ends. *)
Lemma script_stores_trimmed llm inp w :
  let w' := world_of (script llm inp w) in
  graph_state w' = graph_state w
  ∨ graph_state w' = {["answers" := []]}
  ∨ ∃ u, strip u ≠ []
      ∧ graph_state w'
        = <["answers" := answers (graph_state w) ++ [strip u]]> (graph_state w).
Proof.
  cbn zeta.
  destruct (interview_started w || interview_complete w) eqn:Hstarted.
  - destruct (decide (length (answers (graph_state w)) < length questions))
      as [Hlt|Hge].
    + destruct (chat_input inp) as [[|c u]|] eqn:Hinput.
      * rewrite script_waiting, reset_button_run by auto.
        destruct (button inp); by auto.
      * destruct inp as [submitted clicked]. cbn in Hinput. subst.
        rewrite script_submit by done.
        destruct (truthy (strip (c :: u))) eqn:Hu; [|by left].
        right; right. exists (c :: u). by apply truthy_true in Hu.
      * rewrite script_waiting, reset_button_run by auto.
        destruct (button inp); by auto.
    + destruct (script_graph_state llm inp w) as [?|[?|[Hlt _]]];
        [by auto|by auto|lia].
  - apply orb_false_elim in Hstarted as [Hs Hc].
    rewrite script_first_run by done. left.
    by rewrite ask_question_logic_run.
Qed.

(** X6.  Every answer stored in a reachable session is non-empty and has no
    white space at its start or end: trimming it again changes nothing. *)
Theorem stored_answers_are_trimmed w :
  reachable w →
  Forall (λ a, a ≠ [] ∧ strip a = a) (answers (graph_state w)).
Proof.
  unfold reachable. revert w.
  apply (rtc_ind_r (λ w, Forall (λ a, a ≠ [] ∧ strip a = a)
                               (answers (graph_state w)))).
  - cbn [initial_world graph_state]. by rewrite answers_singleton.
  - intros w1 w2 _ [llm inp w0] IH.
    destruct (script_stores_trimmed llm inp w0) as [-> | [-> | (u & Hu & ->)]].
    + done.
    + by rewrite answers_singleton.
    + rewrite answers_insert. apply Forall_app. split; [done|].
      apply Forall_singleton. split; [done|apply strip_idempotent].
Qed.

(** X7.  In a reachable started session that still asks, submitting text
    made of white space only changes nothing at all: no answer, no
    transcript entry, no second posting of the open question, and the reset
    button is not looked at in that run. *)
Theorem blank_submission_changes_nothing llm w u clicked :
  reachable w →
  interview_started w = true →
  length (answers (graph_state w)) < length questions →
  u ≠ [] → all_space u →
  script llm (Widgets (Some u) clicked) w = Raised RerunException w.
Proof.
  intros Hshape%reachable_transcript_shape Hs Hlt Hu Hblank.
  rewrite script_submit by (done || by rewrite Hs).
  rewrite strip_all_space by done. cbn [truthy].
  destruct (shape_asking w Hshape Hs Hlt) as [_ Hhist].
  rewrite Hhist at 2. by rewrite ask_posts_pending, app_nil_r, set_chat_history_same.
Qed.

(** X8.  In a started session with fewer than ten answers, submitting text
    with a non-empty trimmed form stores the trimmed text as the next
    answer, posts it as a user entry followed by the next question if one is
    left, leaves the flags and the prompt log alone and asks for a rerun;
    after the tenth answer no question follows. *)
Theorem answer_submission_step llm w u clicked :
  interview_started w || interview_complete w = true →
  length (answers (graph_state w)) < length questions →
  strip u ≠ [] →
  script llm (Widgets (Some u) clicked) w
  = Raised RerunException
      (World (<["answers" := answers (graph_state w) ++ [strip u]]> (graph_state w))
             (chat_history w ++ Message user (strip u)
                :: match questions !! S (length (answers (graph_state w))) with
                   | Some q => [question_entry (S (length (answers (graph_state w)))) q]
                   | None => []
                   end)
             (interview_complete w) (report_generated w)
             (interview_started w) (llm_prompts w))
  ∧ (S (length (answers (graph_state w))) = length questions →
     questions !! S (length (answers (graph_state w))) = None).
Proof.
  intros Hstarted Hlt Hu. split.
  - rewrite script_submit by (done || by apply strip_nonempty).
    by apply truthy_true in Hu as ->.
  - intros Hlast. apply lookup_ge_None_2. lia.
Qed.

(** X9.  In a reachable session with all ten answers and no report yet, a
    run of the script, whatever the widgets return, sends exactly one prompt
    (the one built from the stored answers), posts exactly one bot entry
    (the headed report, or the error notice if the model raised), sets
    [report_generated] and [interview_complete] and asks for a rerun. *)
Theorem report_step llm inp w :
  reachable w →
  length (answers (graph_state w)) = length questions →
  report_generated w = false →
  script llm inp w
  = Raised RerunException
      (World (graph_state w)
             (chat_history w
              ++ [Message bot
                    match llm (prompt_for (answers (graph_state w))) with
                    | inl report_content => report_heading ++ report_content
                    | inr e => py "Error generating report: " ++ exc_str e
                    end])
             true true true
             (llm_prompts w ++ [prompt_for (answers (graph_state w))])).
Proof.
  intros Hshape%reachable_transcript_shape Hfull Hgen.
  destruct (interview_started w) eqn:Hs.
  - rewrite script_report by (done || by rewrite Hs). by rewrite Hs.
  - destruct (shape_started w Hshape Hs) as (_ & _ & Hnil & _).
    by rewrite Hnil in Hfull.
Qed.

(** X10.  Once the report is generated in a reachable session, a run
    without a click on the reset button changes nothing, whatever text is
    submitted, and the model is not called again; a run with a click gives
    the fresh session back. *)
Theorem finished_session_is_frozen llm submitted w :
  reachable w →
  report_generated w = true →
  script llm (Widgets submitted false) w = Returned tt w
  ∧ script llm (Widgets submitted true) w
    = Raised RerunException
        (World {["answers" := []]} [] false false false (llm_prompts w)).
Proof.
  intros Hshape%reachable_transcript_shape Hgen.
  destruct (shape_finished w Hshape Hgen) as [Hs Hfull].
  split; rewrite script_finished by (done || lia || by rewrite Hs); done.
Qed.

(** X11.  The first run of a session that is not started posts the first
    question and sets [interview_started], without looking at the widgets.
    So a click on the reset button followed by one more run always leads to
    the same session: no answers, the first question as the whole
    transcript, started, nothing else set. *)
Theorem first_run_posts_first_question llm inp w :
  reachable w →
  interview_started w = false →
  script llm inp w
  = Raised RerunException
      (World (graph_state w)
             [Message bot (py "**Q1:** What is your name?")]
             false false true (llm_prompts w))
  ∧ ∀ w0 submitted,
      script llm inp (world_of (reset_button (Widgets submitted true) w0))
      = Raised RerunException
          (World {["answers" := []]}
                 [Message bot (py "**Q1:** What is your name?")]
                 false false true (llm_prompts w0)).
Proof.
  intros Hshape%reachable_transcript_shape Hs.
  destruct (shape_started w Hshape Hs) as (Hc & Hg & Hnil & Hhist).
  split.
  - rewrite script_first_run, ask_question_logic_run by done. fields.
    rewrite Hhist, ask_posts_first, Hnil.
    unfold set_chat_history, set_interview_started. fields.
    by rewrite Hc, Hg.
  - intros w0 submitted. rewrite reset_button_run. cbn [button world_of].
    rewrite script_first_run, ask_question_logic_run by done. fields.
    by rewrite ask_posts_first, answers_singleton.
Qed.

(** *** When the presenter posts *)

Lemma endswith_true s suffix :
  endswith s suffix = true ↔ ∃ prefix, s = prefix ++ suffix.
Proof.
  split.
  - unfold endswith. intros [_ Hdrop%bool_decide_eq_true]%andb_true_iff.
    exists (take (length s - length suffix) s).
    rewrite <- Hdrop at 2. by rewrite take_drop.
  - intros [prefix ->]. apply endswith_app.
Qed.

Lemma already_posted_true q history :
  already_posted q history = true
  ↔ ∃ prefix, last history = Some (Message bot (prefix ++ q)).
Proof.
  unfold already_posted. split.
  - destruct (last history) as [[r text]|]; [|done]. cbn.
    intros [Hrole%bool_decide_eq_true [prefix ->]%endswith_true]%andb_true_iff.
    exists prefix. by rewrite Hrole.
  - intros [prefix ->]. cbn. rewrite bool_decide_true by done.
    apply endswith_app.
Qed.

(** X12.  The presenter leaves the session exactly as it is in two cases
    only: there is no question left for the current count, or the last
    transcript entry is a bot entry whose content ends with the text of the
    next question (whatever stands before it).  In every other case, an
    empty transcript or a last entry by the user included, it posts the
    next question. *)
Theorem ask_question_logic_silent_iff state w :
  ask_question_logic state w = Returned state w
  ↔ length questions ≤ length (answers state)
    ∨ ∃ q prefix,
        questions !! length (answers state) = Some q
        ∧ last (chat_history w) = Some (Message bot (prefix ++ q)).
Proof.
  rewrite ask_question_logic_run. unfold ask_posts.
  destruct (questions !! length (answers state)) as [q|] eqn:Hq.
  - apply lookup_lt_Some in Hq as Hlt.
    destruct (already_posted q (chat_history w)) eqn:Hposted.
    + rewrite app_nil_r, set_chat_history_same. split; [|done]. intros _.
      right. apply already_posted_true in Hposted as [prefix Hlast].
      by exists q, prefix.
    + split.
      * intros [= Hw]. apply (f_equal chat_history) in Hw. cbn in Hw.
        symmetry in Hw. by apply not_grown in Hw.
      * intros [Hge|(q' & prefix & [= <-] & Hlast)]; [lia|].
        assert (already_posted q (chat_history w) = true) as Hyes
          by (apply already_posted_true; by exists prefix).
        congruence.
  - apply lookup_ge_None in Hq.
    rewrite app_nil_r, set_chat_history_same. split; [by left|done].
Qed.

(** X13.  White space around the submitted text makes no difference to the
    collector: the padded text and the text itself give the same state and
    the same transcript. *)
Theorem collect_answer_logic_ignores_padding state pre u post w :
  all_space pre → all_space post →
  collect_answer_logic state (pre ++ u ++ post) w
  = collect_answer_logic state u w.
Proof.
  intros Hpre Hpost. rewrite !collect_answer_logic_run.
  by rewrite strip_padded.
Qed.

(** *** The workflow graph *)

(** X14.  In the workflow graph the conditional edge out of
    ["collect_answer"] has a target for every state: the label that
    [check_completion_condition] returns is always a key of the routing
    table, the target is a declared node, and it is ["generate_report"]
    exactly from ten answers on.  The entry point and both ends of every
    plain edge are declared nodes or [END]. *)
Theorem workflow_routes_every_state state :
  graph_entry workflow = Some "ask_question"
  ∧ Forall (λ e, e.1 ∈ graph_nodes workflow
                 ∧ (e.2 ∈ graph_nodes workflow ∨ e.2 = END))
           (graph_edges workflow)
  ∧ ∀ source table, (source, table) ∈ graph_routes workflow →
      source ∈ graph_nodes workflow
      ∧ ∃ target, conditional_target table state = Some target
          ∧ target ∈ graph_nodes workflow
          ∧ (target = "generate_report"
             ↔ length questions ≤ length (answers state)).
Proof.
  split; [done|]. split.
  { cbn. repeat constructor; cbn; set_solver. }
  intros source table Hin. cbn in Hin.
  apply list_elem_of_singleton in Hin as [= -> ->].
  split; [cbn; set_solver|].
  unfold conditional_target, check_completion_condition.
  case_bool_decide as Hfull.
  - exists "generate_report". split_and!; [done|cbn; set_solver|done].
  - exists "ask_question". split_and!; [done|cbn; set_solver|].
    split; [done|]. intros Hge. by destruct Hfull.
Qed.

(** *** The session initialisation block *)

(** X15.  The initialisation block only fills in keys that are missing:
    afterwards all five keys are there, a session that already had them all
    is left exactly as it was, running the block again changes nothing, and
    on a session with no key at all it gives the fresh session. *)
Theorem init_session_fills_missing_keys s prompts :
  is_Some (session_world (init_session s) prompts)
  ∧ (∀ w, session_world s prompts = Some w →
       session_world (init_session s) prompts = Some w)
  ∧ init_session (init_session s) = init_session s
  ∧ session_world (init_session (RawSession None None None None None)) []
    = Some initial_world.
Proof.
  destruct s as [[g|] [h|] [c|] [r|] [i|]]; cbn; split_and!;
    by (eauto || intros ? [=]).
Qed.

(** *** What one run can do to the logs *)

Lemma generate_report_logic_extends llm state w :
  let w' := world_of (generate_report_logic llm state w) in
  (∃ posted, chat_history w' = chat_history w ++ posted)
  ∧ (llm_prompts w' = llm_prompts w
     ∨ llm_prompts w' = llm_prompts w ++ [prompt_for (answers state)])
  ∧ same_session w w'.
Proof.
  cbn zeta. destruct (decide (answers state = [])) as [Hnil|Hne].
  { rewrite generate_report_logic_empty by done. split_and!; by eauto. }
  destruct (decide (length (answers state) ≤ length questions)) as [Hlen|Hlen].
  - destruct (llm (prompt_for (answers state))) as [r|e] eqn:Hllm.
    + rewrite (generate_report_logic_ok llm _ _ r) by done.
      split_and!; by eauto.
    + rewrite (generate_report_logic_error llm _ _ e) by done.
      split_and!; by eauto.
  - rewrite generate_report_logic_overflow by lia.
    split_and!; [exists []; by rewrite app_nil_r|by left|done].
Qed.

(** X16.  A run of the script never rewrites what is already there: it
    sends at most one prompt to the model, and it either extends the
    transcript and keeps every stored answer in place, or, on a click on the
    reset button, leaves the fresh session. *)
Theorem run_only_appends llm inp w :
  let w' := world_of (script llm inp w) in
  (llm_prompts w' = llm_prompts w
   ∨ llm_prompts w'
     = llm_prompts w ++ [prompt_for (answers (graph_state w))])
  ∧ ((∃ posted, chat_history w' = chat_history w ++ posted)
     ∧ (∃ added, answers (graph_state w')
                 = answers (graph_state w) ++ added)
     ∨ button inp = true
       ∧ w' = World {["answers" := []]} [] false false false (llm_prompts w)).
Proof.
  cbn zeta.
  assert (Hreset :
    let w' := world_of (reset_button inp w) in
    (llm_prompts w' = llm_prompts w
     ∨ llm_prompts w'
       = llm_prompts w ++ [prompt_for (answers (graph_state w))])
    ∧ ((∃ posted, chat_history w' = chat_history w ++ posted)
       ∧ (∃ added, answers (graph_state w')
                   = answers (graph_state w) ++ added)
       ∨ button inp = true
         ∧ w' = World {["answers" := []]} [] false false false (llm_prompts w))).
  { cbn zeta. rewrite reset_button_run. destruct (button inp); cbn.
    - split; [by left|by right].
    - split; [by left|]. left. split; exists []; by rewrite app_nil_r. }
  destruct (interview_started w || interview_complete w) eqn:Hstarted.
  - rewrite script_after_start by done. cbn zeta.
    case_bool_decide as Hlt.
    + destruct (chat_input inp) as [u|]; [|exact Hreset].
      destruct (truthy u); [|exact Hreset].
      rewrite collect_answer_logic_run.
      destruct (truthy (strip u));
        cbn [world_of]; rewrite ask_question_logic_run; fields.
      * split; [by left|]. left. split.
        -- eexists. by rewrite <- app_assoc.
        -- rewrite answers_insert. by eexists.
      * split; [by left|]. left.
        split; [by eexists|exists []; by rewrite app_nil_r].
    + destruct (report_generated w); [exact Hreset|].
      destruct (generate_report_logic_extends llm (graph_state w)
                  (set_report_generated true w))
        as (Hposted & Hprompts & Hgs & _).
      destruct (generate_report_logic _ _ _); fields.
      * split; [done|]. left. split; [done|].
        rewrite Hgs. exists []. by rewrite app_nil_r.
      * split; [done|]. left. split; [done|].
        rewrite Hgs. exists []. by rewrite app_nil_r.
  - apply orb_false_elim in Hstarted as [Hs Hc].
    rewrite script_first_run, ask_question_logic_run by done. fields.
    split; [by left|]. left.
    split; [by eexists|exists []; by rewrite app_nil_r].
Qed.

(** *** A whole interview *)

Lemma pending_question_done n :
  length questions ≤ n → pending_question n = [].
Proof. intros Hn. unfold pending_question. by rewrite lookup_ge_None_2. Qed.

Lemma run_session_answers llm texts :
  length texts ≤ length questions →
  Forall (λ t, strip t ≠ []) texts →
  run_session (interview_runs llm texts)
  = World {["answers" := strip <$> texts]}
          (dialogue 0 questions (strip <$> texts)
           ++ pending_question (length texts))
          false false true [].
Proof.
  unfold run_session, interview_runs. cbn [foldl fst snd].
  induction texts as [|t texts IH] using rev_ind; intros Hlen Hclean.
  - cbn [fmap list_fmap foldl]. by rewrite script_first_run, ask_question_logic_run.
  - rewrite length_app in Hlen. cbn [length] in Hlen.
    apply Forall_app in Hclean as [Hclean [Ht _]%Forall_cons].
    rewrite fmap_app, foldl_app. cbn [fmap list_fmap foldl fst snd].
    rewrite IH by (done || lia).
    rewrite script_submit;
      [|done|cbn [graph_state]; rewrite answers_singleton, length_fmap; lia
       |by apply strip_nonempty].
    apply truthy_true in Ht as ->. cbn [world_of graph_state chat_history
      interview_complete report_generated interview_started llm_prompts].
    rewrite answers_singleton, insert_singleton_eq, !length_fmap, fmap_app.
    f_equal. cbn [fmap list_fmap].
    destruct (lookup_lt_is_Some_2 questions (length (strip <$> texts)))
      as [q Hq]; [rewrite length_fmap; lia|].
    rewrite (dialogue_snoc _ _ _ q) by done.
    rewrite length_fmap in Hq. rewrite (pending_question_Some _ q) by done.
    rewrite length_app, length_fmap, Nat.add_1_r. cbn [length Nat.add].
    by rewrite <- !app_assoc.
Qed.

(** X17.  A whole interview: starting from a fresh session, after the first
    run and one run for each of ten submitted texts with non-empty trimmed
    forms, the session holds the ten trimmed texts as answers and the ten
    questions and answers in turn as transcript; the next run sends the
    prompt built from those answers, posts the report (or the error notice)
    as the one closing entry and marks the interview complete. *)
Theorem whole_interview llm texts inp :
  length texts = length questions →
  Forall (λ t, strip t ≠ []) texts →
  let w := run_session (interview_runs llm texts) in
  w = World {["answers" := strip <$> texts]}
            (dialogue 0 questions (strip <$> texts)) false false true []
  ∧ script llm inp w
    = Raised RerunException
        (World {["answers" := strip <$> texts]}
               (dialogue 0 questions (strip <$> texts)
                ++ [Message bot
                      match llm (prompt_for (strip <$> texts)) with
                      | inl report_content => report_heading ++ report_content
                      | inr e => py "Error generating report: " ++ exc_str e
                      end])
               true true true [prompt_for (strip <$> texts)]).
Proof.
  intros Hlen Hclean. cbn zeta.
  rewrite run_session_answers by (done || lia).
  rewrite (pending_question_done (length texts)) by lia.
  rewrite app_nil_r. split; [done|].
  rewrite script_report;
    [|done|cbn [graph_state]; by rewrite answers_singleton, length_fmap|done].
  cbn [graph_state chat_history interview_started llm_prompts].
  by rewrite answers_singleton.
Qed.

(** ** The further properties on concrete sessions *)

Lemma session_after_three_reachable : reachable session_after_three.
Proof. apply reachable_run_session. Qed.

Lemma session_after_ten_reachable : reachable session_after_ten.
Proof. apply reachable_run_session. Qed.

Lemma session_finished_reachable : reachable session_finished.
Proof. apply reachable_run_session. Qed.

(** Three answers give a prompt of three blocks. *)
Lemma generate_report_logic_with_answers_witness :
  ∃ blocks,
    length blocks = 3
    ∧ llm_prompts
        (world_of (generate_report_logic report_model
                     {["answers" := take 3 sample_answers]} initial_world))
      = [report_prompt (py_join newline blocks)].
Proof.
  destruct (generate_report_logic_with_answers report_model
              {["answers" := take 3 sample_answers]} initial_world)
    as (blocks & Hrun & Hlen & _); [by vm_compute|vm_compute; lia|].
  exists blocks. split; [exact Hlen|by rewrite Hrun].
Defined.

(** Eleven answers: the generator raises and posts nothing. *)
Lemma generate_report_logic_too_many_answers_witness :
  generate_report_logic report_model
    {["answers" := sample_answers ++ [py "one more"]]} initial_world
  = Raised (Exception IndexError) initial_world.
Proof.
  apply (generate_report_logic_too_many_answers report_model
           {["answers" := sample_answers ++ [py "one more"]]} initial_world).
  vm_compute. lia.
Defined.

Lemma reachable_run_never_fails_witness :
  script report_model (Widgets (Some (py " Fast learner ")) false)
    session_after_three
  = Returned tt session_after_three
  ∨ ∃ w', script report_model (Widgets (Some (py " Fast learner ")) false)
            session_after_three
          = Raised RerunException w'.
Proof.
  apply reachable_run_never_fails, session_after_three_reachable.
Defined.

Lemma transcript_holds_the_answers_witness :
  user_texts (chat_history session_after_ten)
  = answers (graph_state session_after_ten)
  ∧ answers (graph_state session_after_ten) = sample_answers.
Proof.
  split; [|by vm_compute].
  apply transcript_holds_the_answers, session_after_ten_reachable.
Defined.

Lemma reachable_flags_witness :
  report_generated session_finished = true
  ∧ interview_complete session_finished = report_generated session_finished
  ∧ length (chat_history session_finished) = 21.
Proof.
  destruct (reachable_flags session_finished session_finished_reachable)
    as (Hcomplete & _ & _ & Hlength).
  split; [by vm_compute|]. split; [exact Hcomplete|].
  rewrite Hlength by by vm_compute. by vm_compute.
Defined.

Lemma stored_answers_are_trimmed_witness :
  let w := run_session (interview_runs report_model
                          [py " Alex "; py "Engineer  "]) in
  answers (graph_state w) = [py "Alex"; py "Engineer"]
  ∧ Forall (λ a, a ≠ [] ∧ strip a = a) (answers (graph_state w)).
Proof.
  cbn zeta. split; [by vm_compute|].
  apply stored_answers_are_trimmed, reachable_run_session.
Defined.

Lemma blank_submission_changes_nothing_witness :
  script report_model (Widgets (Some (py "   ")) true) session_after_three
  = Raised RerunException session_after_three.
Proof.
  apply blank_submission_changes_nothing.
  - apply session_after_three_reachable.
  - by vm_compute.
  - vm_compute. lia.
  - done.
  - repeat constructor.
Defined.

Lemma answer_submission_step_witness :
  ∃ w', script report_model (Widgets (Some (py " Fast learner ")) false)
          session_after_three
        = Raised RerunException w'
    ∧ answers (graph_state w')
      = [py "Alex"; py "Engineer"; py "Python"; py "Fast learner"]
    ∧ last (chat_history w')
      = Some (Message bot (py "**Q5:** What are your weaknesses?")).
Proof.
  destruct (answer_submission_step report_model session_after_three
              (py " Fast learner ") false) as [Hrun _];
    [by vm_compute|vm_compute; lia|by vm_compute|].
  eexists. split; [exact Hrun|]. split; by vm_compute.
Defined.

Lemma report_step_witness :
  ∃ w', script (llm_raising timeout_error) (Widgets (Some (py "late")) true)
          session_after_ten
        = Raised RerunException w'
    ∧ interview_complete w' = true
    ∧ last (chat_history w')
      = Some (Message bot (py "Error generating report: request timed out")).
Proof.
  eexists. split.
  - apply report_step; [apply session_after_ten_reachable|by vm_compute..].
  - split; by vm_compute.
Defined.

Lemma finished_session_is_frozen_witness :
  script report_model (Widgets (Some (py "more")) false) session_finished
  = Returned tt session_finished.
Proof.
  apply (finished_session_is_frozen report_model (Some (py "more"))
           session_finished); [apply session_finished_reachable|by vm_compute].
Defined.

Lemma first_run_posts_first_question_witness :
  script report_model (Widgets (Some (py "too early")) true) initial_world
  = Raised RerunException
      (World {["answers" := []]}
             [Message bot (py "**Q1:** What is your name?")]
             false false true []).
Proof.
  apply (first_run_posts_first_question report_model
           (Widgets (Some (py "too early")) true) initial_world);
    [apply (reachable_run_session [])|done].
Defined.

Lemma collect_answer_logic_ignores_padding_witness :
  collect_answer_logic ∅ (py "  " ++ py "Alex" ++ py " ") initial_world
  = collect_answer_logic ∅ (py "Alex") initial_world.
Proof.
  apply collect_answer_logic_ignores_padding; repeat constructor.
Defined.

Lemma whole_interview_witness :
  ∃ w', script report_model (Widgets None false) session_after_ten
        = Raised RerunException w'
    ∧ answers (graph_state w') = sample_answers
    ∧ length (chat_history w') = 21
    ∧ last (chat_history w')
      = Some (Message bot (report_heading ++ py "REPORT_X")).
Proof.
  destruct (whole_interview report_model sample_answers (Widgets None false))
    as [_ Hrun]; [done|repeat constructor; by vm_compute|].
  eexists. split; [exact Hrun|]. split_and!; by vm_compute.
Defined.
